(** * QIS campus chatbot (bot.py): status simulator and chat gateway

    A shallow embedding of [bot.py].  The module is a Flask application
    with three routes; the two that carry logic are [/status] and
    [/chat].  The embedding keeps the program's own names.

    - A Python [str] is the list of its code points, so slicing and
      [len] count characters as Python does.
    - Values decoded from the request body, and the dictionaries and
      lists the handler builds, are terms of [pyval].
    - The response of the model client is a record with optional
      fields for the answer text; the grounding metadata, which the
      handler probes attribute by attribute, is a value of [pyobj]
      and may have any shape.
    - Exceptions are values of [exn]; code that may raise lives in the
      monad [M], whose state is the list of requests sent to the model
      service.
    - [print] writes to a terminal of which the model keeps what its
      encoding can write: a call either writes or raises, and what is
      written is not kept. *)

From Stdlib Require Import ZArith NArith List String Ascii Bool Lia.
Import ListNotations.

Local Open Scope Z_scope.
Local Open Scope list_scope.
Set Warnings "-register-all".

(* ===================================================================== *)
(** ** Python strings *)
(* ===================================================================== *)

Module Py.

(** A character is a Unicode code point. *)
Definition pychar := N.
Definition pystr := list pychar.

(** An ASCII literal, character by character. *)
Definition py (s : string) : pystr :=
  map N_of_ascii (list_ascii_of_string s).
Arguments py s%_string.

(** The line feed, written [\n] in the source. *)
Definition nl : pystr := [10%N].

Fixpoint str_eqb (a b : pystr) : bool :=
  match a, b with
  | [], [] => true
  | x :: a', y :: b' => N.eqb x y && str_eqb a' b'
  | _, _ => false
  end.

(** [s[:n]] for a non-negative literal [n]. *)
Definition slice_to (n : nat) (s : pystr) : pystr := firstn n s.

(** [sep.join(xs)]. *)
Fixpoint join (sep : pystr) (xs : list pystr) : pystr :=
  match xs with
  | [] => []
  | [x] => x
  | x :: rest => x ++ sep ++ join sep rest
  end.

(** Truth value of a [str]. *)
Definition str_truthy (s : pystr) : bool :=
  match s with [] => false | _ :: _ => true end.

(* --------------------------------------------------------------------- *)
(** *** Values *)

(** What [json.loads] can produce, and what the handler assembles from
    it.  A dictionary keeps its items in insertion order; its keys are
    strings.  A float is carried by its binary64 bit pattern: the
    program never computes with one. *)
Inductive pyval : Type :=
| PyNone
| PyBool (b : bool)
| PyInt (z : Z)
| PyFloat (bits : Z)
| PyStr (s : pystr)
| PyList (xs : list pyval)
| PyDict (items : list (pystr * pyval)).

Fixpoint dict_lookup (items : list (pystr * pyval)) (k : pystr) : option pyval :=
  match items with
  | [] => None
  | (k', v) :: rest => if str_eqb k' k then Some v else dict_lookup rest k
  end.

(* --------------------------------------------------------------------- *)
(** *** Exceptions *)

(** Every class below but the last derives from [Exception].
    [APIError] stands for [google.genai.errors.APIError] and its
    subclasses and carries [str(e)]; [HTTPException] is what
    [request.get_json()] raises on a body it cannot decode;
    [OtherException] is any other class deriving from [Exception], by
    name and text.  [BaseOnly] is a class that derives from
    [BaseException] and not from [Exception], such as
    [KeyboardInterrupt] or [SystemExit]. *)
Inductive exn : Type :=
| APIError (str_e : pystr)
| KeyError (key : pystr)
| TypeError
| AttributeError
| IndexError
| ValueError (msg : pystr)
| FileNotFoundError (msg : pystr)
| HTTPException (code : Z)
| Exception_ (msg : pystr)
| OtherException (class_name : pystr) (str_e : pystr)
| UnicodeEncodeError
| BaseOnly (class_name : pystr) (str_e : pystr).

Definition isinstance_APIError (e : exn) : bool :=
  match e with APIError _ => true | _ => false end.

Definition isinstance_Exception (e : exn) : bool :=
  match e with BaseOnly _ _ => false | _ => true end.

(** [str(e)].  An exception built with a text shows that text, a
    [KeyError] shows the [repr] of its key, which for the plain words
    the program looks up is the key between single quotes.  The errors
    of the interpreter and of the request decoder carry an ASCII
    sentence whose wording changes with the version; the name of the
    class stands for it. *)
Definition str_exn (e : exn) : pystr :=
  match e with
  | APIError str_e => str_e
  | KeyError key => py "'" ++ key ++ py "'"
  | TypeError => py "TypeError"
  | AttributeError => py "AttributeError"
  | IndexError => py "IndexError"
  | ValueError msg => msg
  | FileNotFoundError msg => msg
  | HTTPException _ => py "HTTPException"
  | Exception_ msg => msg
  | OtherException _ str_e => str_e
  | UnicodeEncodeError => py "UnicodeEncodeError"
  | BaseOnly _ str_e => str_e
  end.

Inductive result (A : Type) : Type :=
| Ok (a : A)
| Raise (e : exn).
Arguments Ok {A} a.
Arguments Raise {A} e.

(* --------------------------------------------------------------------- *)
(** *** Operations on values that may raise *)

(** [v.get(k, default)]: only a [dict] has the method. *)
Definition py_get (v : pyval) (k : pystr) (default : pyval) : result pyval :=
  match v with
  | PyDict items =>
      match dict_lookup items k with
      | Some x => Ok x
      | None => Ok default
      end
  | _ => Raise AttributeError
  end.

(** [v[k]] for a string key [k]. *)
Definition py_getitem (v : pyval) (k : pystr) : result pyval :=
  match v with
  | PyDict items =>
      match dict_lookup items k with
      | Some x => Ok x
      | None => Raise (KeyError k)
      end
  | _ => Raise TypeError
  end.

(** The elements [for x in v] visits: the items of a list, the keys of
    a dictionary, the characters of a string. *)
Definition py_iter (v : pyval) : result (list pyval) :=
  match v with
  | PyList xs => Ok xs
  | PyDict items => Ok (map (fun kv => PyStr (fst kv)) items)
  | PyStr s => Ok (map (fun c => PyStr [c]) s)
  | _ => Raise TypeError
  end.

(* --------------------------------------------------------------------- *)
(** *** The terminal *)

(** The standard output behind [print], by the characters its encoding
    can write.  Every encoding Python gives to a terminal writes
    ASCII; [encodable] tells which other characters it writes. *)
Record Terminal := { encodable : pychar -> bool }.

Definition can_write (out : Terminal) (s : pystr) : bool :=
  forallb (fun c => (c <? 128)%N || encodable out c) s.

(** [print(s)]: the text is written, or the encoder raises. *)
Definition py_print (out : Terminal) (s : pystr) : result unit :=
  if can_write out s then Ok tt else Raise UnicodeEncodeError.

End Py.
Import Py.

(* ===================================================================== *)
(** ** [json.dumps(d, indent=2)] on a dictionary of strings *)
(* ===================================================================== *)

Module Json.

Definition hex_digit (d : N) : pychar :=
  if (d <? 10)%N then (48 + d)%N else (97 + (d - 10))%N.

(** [format(n, '04x')] for [n < 0x10000]. *)
Definition hex4 (n : N) : pystr :=
  [ hex_digit (N.land (N.shiftr n 12) 15);
    hex_digit (N.land (N.shiftr n 8) 15);
    hex_digit (N.land (N.shiftr n 4) 15);
    hex_digit (N.land n 15) ].

Definition backslash : pychar := 92%N.
Definition dquote : pychar := 34%N.

Definition u_escape (n : N) : pystr :=
  backslash :: 117%N :: hex4 n.

(** One character under [ensure_ascii=True]: everything outside the
    range from space to tilde is escaped, and so are the quote and the
    backslash. *)
Definition escape_char (c : pychar) : pystr :=
  if (c =? 92)%N then [backslash; backslash]
  else if (c =? 34)%N then [backslash; dquote]
  else if (c =? 8)%N then [backslash; 98%N]
  else if (c =? 12)%N then [backslash; 102%N]
  else if (c =? 10)%N then [backslash; 110%N]
  else if (c =? 13)%N then [backslash; 114%N]
  else if (c =? 9)%N then [backslash; 116%N]
  else if ((32 <=? c) && (c <=? 126))%N then [c]
  else if (c <? 65536)%N then u_escape c
  else
    let n := (c - 65536)%N in
    u_escape (N.lor 55296 (N.land (N.shiftr n 10) 1023))
    ++ u_escape (N.lor 56320 (N.land n 1023)).

Definition encode_str (s : pystr) : pystr :=
  [dquote] ++ flat_map escape_char s ++ [dquote].

Definition dump_item (kv : pystr * pystr) : pystr :=
  py "  " ++ encode_str (fst kv) ++ py ": " ++ encode_str (snd kv).

Definition dumps_indent2 (d : list (pystr * pystr)) : pystr :=
  match d with
  | [] => py "{}"
  | _ => py "{" ++ nl ++ join (py "," ++ nl) (map dump_item d) ++ nl ++ py "}"
  end.

End Json.

(* ===================================================================== *)
(** ** The model client: [google.genai] *)
(* ===================================================================== *)

Module Genai.

(** A value of any shape, as the grounding metadata of a response
    may be: [None], a boolean, an integer, a string, a list, a
    dictionary, or a plain object with the attributes listed.  A plain
    object is true in a condition, cannot be iterated, and is not
    something [jsonify] can serialise. *)
Inductive pyobj : Type :=
| ONone
| OBool (b : bool)
| OInt (z : Z)
| OStr (s : pystr)
| OList (xs : list pyobj)
| ODict (items : list (pystr * pyobj))
| OObject (attrs : list (pystr * pyobj)).

Fixpoint attr_lookup (attrs : list (pystr * pyobj)) (name : pystr)
  : option pyobj :=
  match attrs with
  | [] => None
  | (name', v) :: rest =>
      if str_eqb name' name then Some v else attr_lookup rest name
  end.

(** Truth value in a condition. *)
Definition obj_truthy (o : pyobj) : bool :=
  match o with
  | ONone => false
  | OBool b => b
  | OInt z => negb (z =? 0)
  | OStr s => str_truthy s
  | OList xs => match xs with [] => false | _ :: _ => true end
  | ODict items => match items with [] => false | _ :: _ => true end
  | OObject _ => true
  end.

(** [o.name], for the names the handler reads.  Of these a built-in
    value has one only: a string has the method [title], which is an
    object. *)
Definition getattr (o : pyobj) (name : pystr) : result pyobj :=
  match o with
  | OObject attrs =>
      match attr_lookup attrs name with
      | Some v => Ok v
      | None => Raise AttributeError
      end
  | OStr _ =>
      if str_eqb name (py "title") then Ok (OObject [])
      else Raise AttributeError
  | _ => Raise AttributeError
  end.

(** [getattr(o, name, None)]. *)
Definition getattr_default (o : pyobj) (name : pystr) : pyobj :=
  match getattr o name with
  | Ok v => v
  | Raise _ => ONone
  end.

(** The elements [for x in o] visits. *)
Definition obj_iter (o : pyobj) : result (list pyobj) :=
  match o with
  | OList xs => Ok xs
  | ODict items => Ok (map (fun kv => OStr (fst kv)) items)
  | OStr s => Ok (map (fun c => OStr [c]) s)
  | _ => Raise TypeError
  end.

(** What [jsonify] makes of a value before it builds the response: a
    plain object cannot be serialised. *)
Fixpoint serialise (o : pyobj) : result pyval :=
  match o with
  | ONone => Ok PyNone
  | OBool b => Ok (PyBool b)
  | OInt z => Ok (PyInt z)
  | OStr s => Ok (PyStr s)
  | OList xs =>
      match
        (fix each (xs : list pyobj) : result (list pyval) :=
           match xs with
           | [] => Ok []
           | x :: rest =>
               match serialise x with
               | Raise e => Raise e
               | Ok v =>
                   match each rest with
                   | Raise e => Raise e
                   | Ok vs => Ok (v :: vs)
                   end
               end
           end) xs
      with
      | Raise e => Raise e
      | Ok vs => Ok (PyList vs)
      end
  | ODict items =>
      match
        (fix each (items : list (pystr * pyobj))
           : result (list (pystr * pyval)) :=
           match items with
           | [] => Ok []
           | (k, x) :: rest =>
               match serialise x with
               | Raise e => Raise e
               | Ok v =>
                   match each rest with
                   | Raise e => Raise e
                   | Ok vs => Ok ((k, v) :: vs)
                   end
               end
           end) items
      with
      | Raise e => Raise e
      | Ok vs => Ok (PyDict vs)
      end
  | OObject _ => Raise TypeError
  end.

(** The response of [client.models.generate_content].  For the answer
    text it is restricted to the attributes the handler reads, each
    holding [None] or a value of its type.  The grounding metadata of
    a candidate is read with [getattr] and a [None] default, so
    [ONone] also stands for an attribute that is not there. *)
Record Part := { text : option pystr }.
Record Content := { parts : option (list Part) }.
Record Candidate :=
  { content : option Content;
    grounding_metadata : pyobj }.
Record GenerateContentResponse :=
  { candidates : option (list Candidate) }.

(** The keyword arguments of one [generate_content] call. *)
Record api_request :=
  { model : pystr; contents : pyval; config : pyval }.

(** A client object: what [client.models.generate_content] answers to
    a request, a response or an exception. *)
Record Client :=
  { generate_content : api_request -> result GenerateContentResponse }.

End Genai.
Import Genai.

(* ===================================================================== *)
(** ** Handler monad: exceptions, and the requests sent so far *)
(* ===================================================================== *)

Definition M (A : Type) : Type :=
  list api_request -> result A * list api_request.

Definition ret {A} (a : A) : M A := fun sent => (Ok a, sent).

Definition bind {A B} (m : M A) (k : A -> M B) : M B :=
  fun sent =>
    match m sent with
    | (Ok a, sent') => k a sent'
    | (Raise e, sent') => (Raise e, sent')
    end.

Definition raise {A} (e : exn) : M A := fun sent => (Raise e, sent).

Definition lift {A} (r : result A) : M A := fun sent => (r, sent).

(** [try: m  except ... as e: h e]. *)
Definition try_except {A} (m : M A) (h : exn -> M A) : M A :=
  fun sent =>
    match m sent with
    | (Ok a, sent') => (Ok a, sent')
    | (Raise e, sent') => h e sent'
    end.

(** One call of [client.models.generate_content]. *)
Definition call_generate_content (c : Client) (q : api_request)
  : M GenerateContentResponse :=
  fun sent => (generate_content c q, sent ++ [q]).

Declare Scope handler_scope.
Delimit Scope handler_scope with handler.
Notation "x <- m ;; k" := (bind m (fun x => k))
  (at level 100, m at next level, right associativity) : handler_scope.
Local Open Scope handler_scope.

(** A handler run from a fresh request: its outcome and the requests
    it sent to the model service. *)
Definition run {A} (m : M A) : result A * list api_request := m [].
Definition outcome {A} (m : M A) : result A := fst (run m).
Definition api_calls {A} (m : M A) : list api_request := snd (run m).

(* ===================================================================== *)
(** ** bot.py *)
(* ===================================================================== *)

Module Bot.

(** The value a Flask view returns: [jsonify(body)] alone carries
    status 200, [jsonify(body), code] carries [code]. *)
Record Response := { status_code : Z; json : pyval }.

Definition jsonify (body : pyval) : Response :=
  {| status_code := 200; json := body |}.

Definition with_status (r : Response) (code : Z) : Response :=
  {| status_code := code; json := json r |}.

(** A dictionary of strings as a value. *)
Definition dict_of_strs (d : list (pystr * pystr)) : pyval :=
  PyDict (map (fun kv => (fst kv, PyStr (snd kv))) d).

(* --------------------------------------------------------------------- *)
(** *** [get_campus_status] *)

(** The label that opens the status block of the prompt; its
    pictograph is U+1F4A1. *)
Definition status_label : pystr :=
  nl ++ nl ++ py "# " ++ [128161%N]
  ++ py " CURRENT CAMPUS STATUS (Use ONLY for live status queries)" ++ nl.

(** [current_hour] is [datetime.now().hour], read once per call. *)
Definition get_campus_status (current_hour : Z)
  : list (pystr * pystr) * pystr :=
  let '(ai_lab_occupancy, library_zone, server_health, wifi_status,
        power_source) :=
    if (9 <=? current_hour) && (current_hour <? 16) then
      (py "High (85% occupied)",
       py "Moderately Busy",
       py "Degraded (High Load)",
       py "Operational (Moderate Speed)",
       py "Main Grid")
    else if (16 <=? current_hour) && (current_hour <? 20) then
      (py "Moderate (50% occupied)",
       py "Quiet Zone",
       py "Operational (Normal)",
       py "Operational (Fast Speed)",
       py "Main Grid")
    else
      (py "Low (5% occupied/Closed)",
       py "Closed",
       py "Operational (Low Load)",
       py "Operational (Low Speed)",
       py "Main Grid") in
  let status_data :=
    [ (py "AI Lab 301 Occupancy", ai_lab_occupancy);
      (py "Library Quiet Zone", library_zone);
      (py "Main Server Health", server_health);
      (py "Campus Wi-Fi Status", wifi_status);
      (py "Power Supply", power_source) ] in
  let status_text := status_label in
  let status_text := status_text ++ (Json.dumps_indent2 status_data ++ nl) in
  (status_data, status_text).

(* --------------------------------------------------------------------- *)
(** *** Route [/status] *)

Definition status (current_hour : Z) : Response :=
  let '(status_data, _) := get_campus_status current_hour in
  jsonify (dict_of_strs status_data).

(* --------------------------------------------------------------------- *)
(** *** Route [/chat] *)

(** One line of the prompt template, with the indentation it has in
    the source. *)
Definition indent8 : pystr := py "        ".
Definition line (s : pystr) : pystr := indent8 ++ s ++ nl.

(** The f-string of the handler.  The two pictographs are U+1F4DA and
    U+1F68C. *)
Definition system_prompt (TRANSPORT_DATA status_text : pystr) : pystr :=
  nl
  ++ line (py "You are QIS Bot, the official AI Admissions Counselor for QIS College of Engineering and Technology (QISCET), Ongole.")
  ++ line (py "Your mission is to provide concise, accurate, and helpful information to prospective students.")
  ++ line []
  ++ line (py "CRITICAL INSTRUCTIONS:")
  ++ line (py "1. **Be Concise:** Keep answers brief (2-3 sentences max) and professional.")
  ++ line (py "2. **Use Search Tool:** Use the Google Search tool for current, general information (like admissions, specific courses, fees, and job placements).")
  ++ line (py "3. **Use Embedded Data:** Use the provided TRANSPORTATION DATA and CAMPUS STATUS below to answer specific questions.")
  ++ line (py "4. **Maintain Persona:** Maintain a friendly, supportive tone.")
  ++ line []
  ++ line (py "---")
  ++ line []
  ++ line (py "# " ++ [128218%N] ++ py " QISCET KEY FACTS")
  ++ line (py "- Location: Vengamukkapalem, Ongole, Prakasam District, Andhra Pradesh.")
  ++ line (py "- Affiliation: Jawaharlal Nehru Technological University (JNTUK), Kakinada.")
  ++ line (py "- Programs: B.Tech (CSE, ECE, EEE, Mechanical, Civil, IT, AI & ML, Data Science), M.Tech, MBA, MCA.")
  ++ line []
  ++ line (py "---")
  ++ line []
  ++ line (py "# " ++ [128652%N] ++ py " TRANSPORTATION DATA (Use ONLY for bus/route/driver queries)")
  ++ line TRANSPORT_DATA
  ++ line []
  ++ line (py "---")
  ++ line []
  ++ line status_text
  ++ line []
  ++ indent8.

(** The body of an incoming request as [request.get_json()] sees it:
    the decoded value, or the exception raised when it cannot be
    decoded. *)
Record Request := { get_json : result pyval }.

(** The turn the handler appends for one history entry. *)
Definition api_turn (role text : pyval) : pyval :=
  PyDict [ (py "role", role);
           (py "parts", PyList [PyDict [(py "text", text)]]) ].

(** The [for message in history] loop, appending to [full_history]. *)
Fixpoint translate_history (messages : list pyval) (full_history : list pyval)
  : result (list pyval) :=
  match messages with
  | [] => Ok full_history
  | message :: rest =>
      match py_getitem message (py "role") with
      | Raise e => Raise e
      | Ok role =>
          match py_getitem message (py "text") with
          | Raise e => Raise e
          | Ok text =>
              translate_history rest (full_history ++ [api_turn role text])
          end
      end
  end.

(** [xs[0]] on an attribute that may hold [None]. *)
Definition first_item {A} (xs : option (list A)) : result A :=
  match xs with
  | None => Raise TypeError
  | Some [] => Raise IndexError
  | Some (x :: _) => Ok x
  end.

(** Truth value of an attribute holding [None] or a string. *)
Definition opt_str_truthy (s : option pystr) : bool :=
  match s with Some s' => str_truthy s' | None => false end.

Definition opt_str_obj (s : option pystr) : pyobj :=
  match s with Some s' => OStr s' | None => ONone end.

(** The condition of the list comprehension:
    [getattr(attr, 'web', None) and attr.web.uri and attr.web.title]. *)
Definition has_citation (attr : pyobj) : result bool :=
  if negb (obj_truthy (getattr_default attr (py "web"))) then Ok false
  else
    match getattr attr (py "web") with
    | Raise e => Raise e
    | Ok web =>
        match getattr web (py "uri") with
        | Raise e => Raise e
        | Ok uri =>
            if negb (obj_truthy uri) then Ok false
            else
              match getattr web (py "title") with
              | Raise e => Raise e
              | Ok title => Ok (obj_truthy title)
              end
        end
    end.

(** The element of the list comprehension:
    [{'uri': attr.web.uri, 'title': attr.web.title}]. *)
Definition source_entry (attr : pyobj) : result pyobj :=
  match getattr attr (py "web") with
  | Raise e => Raise e
  | Ok web =>
      match getattr web (py "uri") with
      | Raise e => Raise e
      | Ok uri =>
          match getattr web (py "title") with
          | Raise e => Raise e
          | Ok title => Ok (ODict [ (py "uri", uri); (py "title", title) ])
          end
      end
  end.

(** The list comprehension over the attributions, element by
    element. *)
Fixpoint sources_of (attrs : list pyobj) : result (list pyobj) :=
  match attrs with
  | [] => Ok []
  | attr :: rest =>
      match has_citation attr with
      | Raise e => Raise e
      | Ok false => sources_of rest
      | Ok true =>
          match source_entry attr with
          | Raise e => Raise e
          | Ok entry =>
              match sources_of rest with
              | Raise e => Raise e
              | Ok entries => Ok (entry :: entries)
              end
          end
      end
  end.

(** Step 5 of the handler: the answer text and the sources. *)
Definition extract (response : GenerateContentResponse)
  : result (option pystr * list pyobj) :=
  let response_text := Some [] in
  let sources := [] in
  match candidates response with
  | Some (candidate0 :: _) =>
      match content candidate0 with
      | Some content0 =>
          match first_item (parts content0) with
          | Raise e => Raise e
          | Ok part0 =>
              let response_text := text part0 in
              let grounding_metadata := grounding_metadata candidate0 in
              if obj_truthy grounding_metadata
                 && obj_truthy (getattr_default grounding_metadata
                                  (py "grounding_attributions"))
              then
                match getattr grounding_metadata (py "grounding_attributions") with
                | Raise e => Raise e
                | Ok attributions =>
                    match obj_iter attributions with
                    | Raise e => Raise e
                    | Ok attrs =>
                        match sources_of attrs with
                        | Raise e => Raise e
                        | Ok sources => Ok (response_text, sources)
                        end
                    end
                end
              else Ok (response_text, sources)
          end
      | None => Ok (response_text, sources)
      end
  | _ => Ok (response_text, sources)
  end.

Definition generic_error : pystr :=
  py "An unexpected server error occurred. Please check the terminal for details.".

Definition api_error_prefix : pystr :=
  py "The Gemini AI service is currently unavailable. (API Error: ".

Definition api_error_suffix : pystr := py "...)".

Definition error_body (msg : pystr) : pyval :=
  PyDict [(py "error", PyStr msg)].

(** The body of the [try] block. *)
Definition chat_try (client : Client) (TRANSPORT_DATA : pystr)
    (current_hour : Z) (request : Request) : M Response :=
  data <- lift (get_json request) ;;
  user_message <- lift (py_get data (py "message") (PyStr [])) ;;
  history <- lift (py_get data (py "history") (PyList [])) ;;
  let '(_, status_text) := get_campus_status current_hour in
  let system_prompt := system_prompt TRANSPORT_DATA status_text in
  let full_history := [] in
  messages <- lift (py_iter history) ;;
  full_history <- lift (translate_history messages full_history) ;;
  let full_history := full_history ++ [api_turn (PyStr (py "user")) user_message] in
  response <- call_generate_content client
    {| model := py "gemini-2.5-flash";
       contents := PyList full_history;
       config := PyDict [ (py "system_instruction", PyStr system_prompt);
                          (py "tools",
                           PyList [PyDict [(py "google_search", PyDict [])]]) ] |} ;;
  extracted <- lift (extract response) ;;
  let '(response_text, sources) := extracted in
  if negb (opt_str_truthy response_text) then
    raise (Exception_ (py "API returned an empty text response."))
  else
    body <- lift (serialise (ODict [ (py "response", opt_str_obj response_text);
                                     (py "sources", OList sources) ])) ;;
    ret (jsonify body).

(** The two [except] clauses, tried in order.  Each prints the
    exception before it returns; an exception that matches neither
    clause goes on, and so does one raised inside a clause. *)
Definition chat_except (out : Terminal) (e : exn) : M Response :=
  if isinstance_APIError e then
    _ <- lift (py_print out (py "TERMINAL ERROR: Gemini API call failed: "
                             ++ str_exn e)) ;;
    ret (with_status
           (jsonify (error_body (api_error_prefix ++ slice_to 50 (str_exn e)
                                 ++ api_error_suffix)))
           500)
  else if isinstance_Exception e then
    _ <- lift (py_print out
                 (py "TERMINAL ERROR: Unhandled Python error in /chat route: "
                  ++ str_exn e)) ;;
    ret (with_status (jsonify (error_body generic_error)) 500)
  else raise e.

(** The handler.  [client] is the module-level variable, which the
    handler compares with [None] before anything else; [out] is the
    terminal its [print] calls write to. *)
Definition chat (out : Terminal) (client : option Client)
    (TRANSPORT_DATA : pystr) (current_hour : Z) (request : Request)
  : M Response :=
  match client with
  | None =>
      _ <- lift (py_print out
                   (py "TERMINAL ERROR: Gemini Client failed to initialize. Cannot process chat.")) ;;
      ret (with_status (jsonify (error_body generic_error)) 500)
  | Some c =>
      try_except (chat_try c TRANSPORT_DATA current_hour request)
        (chat_except out)
  end.

(* --------------------------------------------------------------------- *)
(** *** Module start-up *)

(** What the module reads when it is loaded: the process environment
    after [load_dotenv()], the constructor [genai.Client], and the file
    system behind [open(...).read()], at the path [bus_data_path]
    computed from the module's own location. *)
Record Environment :=
  { getenv : pystr -> option pystr;
    genai_Client : pystr -> result Client;
    open_read : pystr -> result pystr;
    bus_data_path : pystr }.

Definition load_transport_data (env : Environment) (file_path : pystr)
  : result pystr :=
  match open_read env file_path with
  | Ok s => Ok s
  | Raise (FileNotFoundError _) =>
      Raise (FileNotFoundError
               (py "Transportation data file not found at: " ++ file_path))
  | Raise e => Raise e
  end.

(** The module-level variables the routes read. *)
Record Globals :=
  { client : option Client; TRANSPORT_DATA : pystr }.

(** The module body, top to bottom: an exception here ends the process
    before the server starts. *)
Definition module_init (env : Environment) : result Globals :=
  let API_KEY := getenv env (py "BOT_API_KEY") in
  match API_KEY with
  | Some (k :: key) =>
      match genai_Client env (k :: key) with
      | Raise e => Raise e
      | Ok c =>
          match load_transport_data env (bus_data_path env) with
          | Raise e => Raise e
          | Ok data => Ok {| client := Some c; TRANSPORT_DATA := data |}
          end
      end
  | _ =>
      Raise (ValueError
               (py "The 'BOT_API_KEY' environment variable is not set. Cannot initialize Gemini Client."))
  end.

End Bot.
Import Bot.

(* ===================================================================== *)
(** ** Derived forms of the handler *)
(* ===================================================================== *)

Module Derived.

(** The request the handler sends when the turns are [full_history]. *)
Definition request_for (TD : pystr) (hour : Z) (full_history : list pyval)
  : api_request :=
  {| model := py "gemini-2.5-flash";
     contents := PyList full_history;
     config :=
       PyDict [ (py "system_instruction",
                 PyStr (system_prompt TD (snd (get_campus_status hour))));
                (py "tools",
                 PyList [PyDict [(py "google_search", PyDict [])]]) ] |}.

Definition user_turn (user_message : pyval) : pyval :=
  api_turn (PyStr (py "user")) user_message.

(** Everything the [try] block does before the call. *)
Definition prepare (TD : pystr) (hour : Z) (request : Request)
  : result api_request :=
  match get_json request with
  | Raise e => Raise e
  | Ok data =>
      match py_get data (py "message") (PyStr []) with
      | Raise e => Raise e
      | Ok user_message =>
          match py_get data (py "history") (PyList []) with
          | Raise e => Raise e
          | Ok history =>
              match py_iter history with
              | Raise e => Raise e
              | Ok messages =>
                  match translate_history messages [] with
                  | Raise e => Raise e
                  | Ok turns =>
                      Ok (request_for TD hour
                            (turns ++ [user_turn user_message]))
                  end
              end
          end
      end
  end.

(** Everything the [try] block does after the call. *)
Definition reply (response : GenerateContentResponse) : result Response :=
  match extract response with
  | Raise e => Raise e
  | Ok (response_text, sources) =>
      if negb (opt_str_truthy response_text) then
        Raise (Exception_ (py "API returned an empty text response."))
      else
        match serialise (ODict [ (py "response", opt_str_obj response_text);
                                 (py "sources", OList sources) ]) with
        | Raise e => Raise e
        | Ok body => Ok (jsonify body)
        end
  end.

(** The response an [except] clause builds. *)
Definition error_response (e : exn) : Response :=
  match e with
  | APIError str_e =>
      with_status
        (jsonify (error_body (api_error_prefix ++ slice_to 50 str_e
                              ++ api_error_suffix)))
        500
  | _ => with_status (jsonify (error_body generic_error)) 500
  end.

Definition generic_response : Response :=
  with_status (jsonify (error_body generic_error)) 500.

(** What becomes of an exception of the [try] block: the response of
    the clause that takes it, when its text can be printed. *)
Definition handled (out : Terminal) (e : exn) : result Response :=
  if isinstance_Exception e then
    if can_write out (str_exn e) then Ok (error_response e)
    else Raise UnicodeEncodeError
  else Raise e.

Definition settle (out : Terminal) (r : result Response) : result Response :=
  match r with
  | Ok resp => Ok resp
  | Raise e => handled out e
  end.

(** [serialise] along a list and along the items of a dictionary. *)
Fixpoint serialise_each (xs : list pyobj) : result (list pyval) :=
  match xs with
  | [] => Ok []
  | x :: rest =>
      match serialise x with
      | Raise e => Raise e
      | Ok v =>
          match serialise_each rest with
          | Raise e => Raise e
          | Ok vs => Ok (v :: vs)
          end
      end
  end.

Fixpoint serialise_items (items : list (pystr * pyobj))
  : result (list (pystr * pyval)) :=
  match items with
  | [] => Ok []
  | (k, x) :: rest =>
      match serialise x with
      | Raise e => Raise e
      | Ok v =>
          match serialise_items rest with
          | Raise e => Raise e
          | Ok vs => Ok ((k, v) :: vs)
          end
      end
  end.

(** An element the list comprehension produces. *)
Definition is_entry (o : pyobj) : Prop :=
  exists u t,
    o = ODict [ (py "uri", u); (py "title", t) ] /\
    obj_truthy u = true /\ obj_truthy t = true.

(** The exceptions the steps after the call raise themselves. *)
Definition own_error (e : exn) : Prop :=
  e = TypeError \/ e = AttributeError \/ e = IndexError \/
  e = Exception_ (py "API returned an empty text response.").

End Derived.
Import Derived.

(* ===================================================================== *)
(** ** Vocabulary of the specification *)
(* ===================================================================== *)

Module Spec.

(** The three profiles of the status simulator. *)
Definition peak_profile : list (pystr * pystr) :=
  [ (py "AI Lab 301 Occupancy", py "High (85% occupied)");
    (py "Library Quiet Zone", py "Moderately Busy");
    (py "Main Server Health", py "Degraded (High Load)");
    (py "Campus Wi-Fi Status", py "Operational (Moderate Speed)");
    (py "Power Supply", py "Main Grid") ].

Definition evening_profile : list (pystr * pystr) :=
  [ (py "AI Lab 301 Occupancy", py "Moderate (50% occupied)");
    (py "Library Quiet Zone", py "Quiet Zone");
    (py "Main Server Health", py "Operational (Normal)");
    (py "Campus Wi-Fi Status", py "Operational (Fast Speed)");
    (py "Power Supply", py "Main Grid") ].

Definition off_hours_profile : list (pystr * pystr) :=
  [ (py "AI Lab 301 Occupancy", py "Low (5% occupied/Closed)");
    (py "Library Quiet Zone", py "Closed");
    (py "Main Server Health", py "Operational (Low Load)");
    (py "Campus Wi-Fi Status", py "Operational (Low Speed)");
    (py "Power Supply", py "Main Grid") ].

(** The five documented metric names. *)
Definition status_keys : list pystr :=
  [ py "AI Lab 301 Occupancy";
    py "Library Quiet Zone";
    py "Main Server Health";
    py "Campus Wi-Fi Status";
    py "Power Supply" ].

Definition is_str (v : pyval) : Prop := exists s, v = PyStr s.

(** A string between double quotes, nothing escaped. *)
Definition quoted (s : pystr) : pystr := [34%N] ++ s ++ [34%N].

(** The indented text of a mapping, names and values verbatim. *)
Definition metric_line (kv : pystr * pystr) : pystr :=
  py "  " ++ quoted (fst kv) ++ py ": " ++ quoted (snd kv).

Definition status_block (d : list (pystr * pystr)) : pystr :=
  py "{" ++ nl ++ join (py "," ++ nl) (map metric_line d) ++ nl ++ py "}".

(** A turn in the format of the model service: a role, and parts
    holding a single part with the text. *)
Definition service_turn (role text : pyval) : pyval :=
  PyDict [ (py "role", role);
           (py "parts", PyList [PyDict [(py "text", text)]]) ].

(** A history turn that has both fields, and the turn sent for it. *)
Definition turn_for (message turn : pyval) : Prop :=
  exists role text,
    py_getitem message (py "role") = Ok role /\
    py_getitem message (py "text") = Ok text /\
    turn = service_turn role text.

Definition has_role_and_text (message : pyval) : Prop :=
  exists turn, turn_for message turn.

(** A web citation as the client library types it: a URI and a title,
    each a string or [None]. *)
Record Citation := { cite_uri : option pystr; cite_title : option pystr }.

(** An attribution, by the web citation it carries if any, exposes a
    citation when URI and title are both non-empty; the source listed
    for it is the pair of the two. *)
Definition exposes_citation (w : option Citation) : bool :=
  match w with
  | Some {| cite_uri := Some (_ :: _); cite_title := Some (_ :: _) |} => true
  | _ => false
  end.

Definition citation (w : option Citation) : pyval :=
  match w with
  | Some {| cite_uri := Some u; cite_title := Some t |} =>
      PyDict [ (py "uri", PyStr u); (py "title", PyStr t) ]
  | _ => PyNone
  end.

Definition cited_sources (ws : list (option Citation)) : list pyval :=
  map citation (filter exposes_citation ws).

(** The same source before it is serialised. *)
Definition citation_obj (w : option Citation) : pyobj :=
  match w with
  | Some c =>
      ODict [ (py "uri", opt_str_obj (cite_uri c));
              (py "title", opt_str_obj (cite_title c)) ]
  | None => ONone
  end.

(** An object that is a web citation of that type, and an object that
    is an attribution carrying it, or carrying none. *)
Definition holds_web (o : pyobj) (w : Citation) : Prop :=
  getattr o (py "uri") = Ok (opt_str_obj (cite_uri w)) /\
  getattr o (py "title") = Ok (opt_str_obj (cite_title w)).

Definition holds_attribution (attr : pyobj) (w : option Citation) : Prop :=
  match w with
  | Some c => exists o, getattr attr (py "web") = Ok o /\ holds_web o c
  | None => getattr_default attr (py "web") = ONone
  end.

(** Grounding metadata that lists the attributions [ws]: none when the
    metadata or the list is missing, otherwise a list of attributions
    of the type above. *)
Definition lists_attributions (gm : pyobj) (ws : list (option Citation))
  : Prop :=
  (gm = ONone /\ ws = []) \/
  (getattr_default gm (py "grounding_attributions") = ONone /\ ws = []) \/
  (exists attrs,
     getattr gm (py "grounding_attributions") = Ok (OList attrs) /\
     Forall2 holds_attribution attrs ws).

(** A web citation without a title. *)
Definition lacks_title (w : option Citation) : Prop :=
  exists c, w = Some c /\ (cite_title c = None \/ cite_title c = Some []).

(** A response with no candidates, or whose first candidate has no
    content. *)
Definition no_answer (r : GenerateContentResponse) : Prop :=
  candidates r = None \/
  candidates r = Some [] \/
  exists c rest, candidates r = Some (c :: rest) /\ content c = None.

(** A response whose first candidate carries the non-empty text [t] in
    its first part. *)
Definition answers (r : GenerateContentResponse) (c : Candidate) (t : pystr)
  : Prop :=
  exists rest ct p ps,
    candidates r = Some (c :: rest) /\
    content c = Some ct /\
    parts ct = Some (p :: ps) /\
    text p = Some t /\
    t <> [].

Definition success_body (t : pystr) (sources : list pyval) : pyval :=
  PyDict [ (py "response", PyStr t); (py "sources", PyList sources) ].

End Spec.
Import Spec.

(* ===================================================================== *)
(** ** Sample inputs *)
(* ===================================================================== *)

Module Samples.

Definition bus_data : pystr := py "Route 7: Ongole Bus Stand - QISCET, 8:15 AM".

Definition turn (role text : pystr) : pyval :=
  PyDict [ (py "role", PyStr role); (py "text", PyStr text) ].

Definition two_turns : list pyval :=
  [ turn (py "user") (py "Hello");
    turn (py "model") (py "Hi, how can I help?") ].

Definition question : pyval := PyStr (py "What bus goes to Ongole?").

Definition body_full : pyval :=
  PyDict [ (py "message", question); (py "history", PyList two_turns) ].

Definition request_full : Request := {| get_json := Ok body_full |}.

(** A body with neither field. *)
Definition request_bare : Request := {| get_json := Ok (PyDict []) |}.

(** A history whose second turn has no text. *)
Definition body_broken : pyval :=
  PyDict [ (py "message", question);
           (py "history",
            PyList [ turn (py "user") (py "Hello");
                     PyDict [(py "role", PyStr (py "model"))] ]) ].

Definition request_broken : Request := {| get_json := Ok body_broken |}.

Definition answer_text : pystr := py "Route 7 leaves Ongole Bus Stand at 8:15 AM.".

Definition answer_content : Content :=
  {| parts := Some [ {| text := Some answer_text |} ] |}.

Definition attr_full : pyobj :=
  OObject
    [ (py "web",
       OObject [ (py "uri", OStr (py "https://qiscet.edu.in/transport"));
                 (py "title", OStr (py "Transport")) ]) ].

Definition attr_untitled : pyobj :=
  OObject
    [ (py "web",
       OObject [ (py "uri", OStr (py "https://example.org/buses"));
                 (py "title", ONone) ]) ].

Definition attr_other : pyobj :=
  OObject
    [ (py "web",
       OObject [ (py "uri", OStr (py "https://example.org/routes"));
                 (py "title", OStr (py "Routes")) ]) ].

Definition candidate_grounded : Candidate :=
  {| content := Some answer_content;
     grounding_metadata :=
       OObject [ (py "grounding_attributions",
                  OList [attr_full; attr_untitled; attr_other]) ] |}.

Definition response_grounded : GenerateContentResponse :=
  {| candidates := Some [candidate_grounded] |}.

Definition response_empty : GenerateContentResponse :=
  {| candidates := Some [] |}.

Definition answering (r : GenerateContentResponse) : Client :=
  {| generate_content := fun _ => Ok r |}.

Definition failing (e : exn) : Client :=
  {| generate_content := fun _ => Raise e |}.

Definition rate_limited : pystr := py "rate limited: too many requests".

(** A terminal that writes UTF-8: every character but the surrogates,
    U+D800 to U+DFFF. *)
Definition utf8 : Terminal :=
  {| encodable := fun c => negb ((55296 <=? c) && (c <=? 57343))%N |}.

(** A terminal that writes ASCII and nothing else. *)
Definition ascii_only : Terminal := {| encodable := fun _ => false |}.

(** A start-up environment in which everything is in place. *)
Definition env_ready : Environment :=
  {| getenv := fun k =>
       if str_eqb k (py "BOT_API_KEY") then Some (py "secret") else None;
     genai_Client := fun _ => Ok (answering response_grounded);
     open_read := fun _ => Ok bus_data;
     bus_data_path := py "/srv/bot/data/bus_data.txt" |}.

End Samples.

(* ===================================================================== *)
(** ** Shapes of requests and responses *)
(* ===================================================================== *)

Module Shapes.

(** A turn in the format of the model service. *)
Definition is_turn (v : pyval) : Prop :=
  exists role text, v = service_turn role text.

(** An entry of the sources list: a URI and a title, neither of them
    [None] nor the empty string. *)
Definition is_source (v : pyval) : Prop :=
  exists u t,
    v = PyDict [ (py "uri", u); (py "title", t) ] /\
    u <> PyNone /\ u <> PyStr [] /\
    t <> PyNone /\ t <> PyStr [].

(** The two bodies the chat route can answer with. *)
Definition success_shape (resp : Response) : Prop :=
  status_code resp = 200 /\
  exists t sources,
    t <> [] /\
    Forall is_source sources /\
    json resp = PyDict [ (py "response", PyStr t);
                         (py "sources", PyList sources) ].

Definition error_shape (resp : Response) : Prop :=
  status_code resp = 500 /\
  exists msg, json resp = PyDict [ (py "error", PyStr msg) ].

(** A response cut down to its first candidate and, in its content,
    to the first part. *)
Definition first_part_only (ct : Content) : Content :=
  {| parts := match parts ct with
              | Some (p :: _) => Some [p]
              | other => other
              end |}.

Definition first_only (r : GenerateContentResponse) : GenerateContentResponse :=
  match candidates r with
  | Some (c :: _) =>
      {| candidates :=
           Some [ {| content := option_map first_part_only (content c);
                     grounding_metadata := grounding_metadata c |} ] |}
  | _ => r
  end.

(** The three bands of the day. *)
Inductive band : Type := Peak | Evening | OffHours.

Definition band_of (h : Z) : band :=
  if Z_le_dec 9 h then
    if Z_lt_dec h 16 then Peak
    else if Z_lt_dec h 20 then Evening else OffHours
  else OffHours.

(** The history a decoded body stands for. *)
Definition history_value (items : list (pystr * pyval)) : pyval :=
  match dict_lookup items (py "history") with
  | Some v => v
  | None => PyList []
  end.

Definition message_value (items : list (pystr * pyval)) : pyval :=
  match dict_lookup items (py "message") with
  | Some v => v
  | None => PyStr []
  end.

(** A request body whose decoding does not raise an API error: the
    decoder of the web framework raises its own exceptions only. *)
Definition decodes_without_api_error (request : Request) : Prop :=
  forall s, get_json request <> Raise (APIError s).

End Shapes.
Import Shapes.

Module MoreSamples.

(** A response with two candidates and two parts in the first. *)
Definition response_many : GenerateContentResponse :=
  {| candidates :=
       Some [ {| content :=
                   Some {| parts := Some [ {| text := Some (py "First.") |};
                                           {| text := Some (py "Second.") |} ] |};
                 grounding_metadata := ONone |};
              {| content := Some Samples.answer_content;
                 grounding_metadata := ONone |} ] |}.

(** A body whose history is [null]. *)
Definition request_null_history : Request :=
  {| get_json := Ok (PyDict [ (py "message", Samples.question);
                              (py "history", PyNone) ]) |}.

(** A start-up environment without the data file. *)
Definition env_no_file : Environment :=
  {| getenv := getenv Samples.env_ready;
     genai_Client := genai_Client Samples.env_ready;
     open_read := fun _ => Raise (FileNotFoundError (py "[Errno 2] No such file or directory"));
     bus_data_path := py "/srv/bot/data/bus_data.txt" |}.

(** A start-up environment whose data file cannot be read. *)
Definition env_unreadable : Environment :=
  {| getenv := getenv Samples.env_ready;
     genai_Client := genai_Client Samples.env_ready;
     open_read := fun _ => Raise (OtherException (py "PermissionError")
                                    (py "[Errno 13] Permission denied"));
     bus_data_path := py "/srv/bot/data/bus_data.txt" |}.




(** The text of an API error that ends in a lone surrogate, U+D83D. *)
Definition surrogate_text : pystr := py "429 quota exceeded " ++ [55357%N].

(** The text of a connection failure with an accented letter, U+00E9. *)
Definition accented_text : pystr :=
  py "connexion refus" ++ [233%N] ++ py "e".

End MoreSamples.

(* ===================================================================== *)
(** ** The status simulator *)
(* ===================================================================== *)

Section StatusSimulator.

Variable h : Z.

Lemma status_data_peak :
  9 <= h < 16 -> fst (get_campus_status h) = peak_profile.
Proof.
  intros [H1 H2]. unfold get_campus_status.
  apply Z.leb_le in H1. apply Z.ltb_lt in H2.
  rewrite H1, H2. reflexivity.
Qed.

Lemma status_data_evening :
  16 <= h < 20 -> fst (get_campus_status h) = evening_profile.
Proof.
  intros [H1 H2]. unfold get_campus_status.
  assert (H3 : (h <? 16) = false) by (apply Z.ltb_ge; lia).
  apply Z.leb_le in H1. apply Z.ltb_lt in H2.
  rewrite H3, H1, H2, andb_false_r. reflexivity.
Qed.

Lemma status_data_off_hours :
  h < 9 \/ 20 <= h -> fst (get_campus_status h) = off_hours_profile.
Proof.
  intros H. unfold get_campus_status.
  destruct H as [H | H].
  - assert (H1 : (9 <=? h) = false) by (apply Z.leb_gt; lia).
    assert (H2 : (16 <=? h) = false) by (apply Z.leb_gt; lia).
    rewrite H1, H2. reflexivity.
  - assert (H1 : (h <? 16) = false) by (apply Z.ltb_ge; lia).
    assert (H2 : (h <? 20) = false) by (apply Z.ltb_ge; lia).
    rewrite H1, H2, !andb_false_r. reflexivity.
Qed.

Lemma status_data_cases :
  fst (get_campus_status h) = peak_profile \/
  fst (get_campus_status h) = evening_profile \/
  fst (get_campus_status h) = off_hours_profile.
Proof.
  destruct (Z_lt_ge_dec h 9) as [Ha | Ha].
  - right; right. apply status_data_off_hours. lia.
  - destruct (Z_lt_ge_dec h 16) as [Hb | Hb].
    + left. apply status_data_peak. lia.
    + destruct (Z_lt_ge_dec h 20) as [Hc | Hc].
      * right; left. apply status_data_evening. lia.
      * right; right. apply status_data_off_hours. lia.
Qed.

Lemma status_text_eq :
  snd (get_campus_status h) =
  status_label ++ Json.dumps_indent2 (fst (get_campus_status h)) ++ nl.
Proof.
  unfold get_campus_status.
  destruct ((9 <=? h) && (h <? 16)); [ reflexivity | ].
  destruct ((16 <=? h) && (h <? 20)); reflexivity.
Qed.

Lemma status_eq :
  status h = jsonify (dict_of_strs (fst (get_campus_status h))).
Proof.
  unfold status. destruct (get_campus_status h) as [sd st]. reflexivity.
Qed.

End StatusSimulator.

Lemma profiles_distinct :
  peak_profile <> evening_profile /\
  peak_profile <> off_hours_profile /\
  evening_profile <> off_hours_profile.
Proof.
  repeat split; intros H; vm_compute in H; discriminate H.
Qed.

Lemma profile_blocks :
  Json.dumps_indent2 peak_profile = status_block peak_profile /\
  Json.dumps_indent2 evening_profile = status_block evening_profile /\
  Json.dumps_indent2 off_hours_profile = status_block off_hours_profile.
Proof. repeat split; vm_compute; reflexivity. Qed.

(** C2.  The status simulator returns the peak profile exactly in the
    hours from 9 to 15, the evening profile exactly in the hours from
    16 to 19, and the off-hours profile in every other hour; this
    holds for every hour of the day, and for every integer.  The hours
    8, 9, 15, 16, 19, 20, 23 and 0 fall in the off-hours, peak, peak,
    evening, evening, off-hours, off-hours and off-hours branches. *)
Theorem status_profile_by_hour (h : Z) :
  (fst (get_campus_status h) = peak_profile <-> 9 <= h < 16) /\
  (fst (get_campus_status h) = evening_profile <-> 16 <= h < 20) /\
  (fst (get_campus_status h) = off_hours_profile <-> (h < 9 \/ 20 <= h)) /\
  fst (get_campus_status 8) = off_hours_profile /\
  fst (get_campus_status 9) = peak_profile /\
  fst (get_campus_status 15) = peak_profile /\
  fst (get_campus_status 16) = evening_profile /\
  fst (get_campus_status 19) = evening_profile /\
  fst (get_campus_status 20) = off_hours_profile /\
  fst (get_campus_status 23) = off_hours_profile /\
  fst (get_campus_status 0) = off_hours_profile.
Proof.
  destruct profiles_distinct as (Hpe & Hpo & Heo).
  assert (Hcases :
    (9 <= h < 16 /\ fst (get_campus_status h) = peak_profile) \/
    (16 <= h < 20 /\ fst (get_campus_status h) = evening_profile) \/
    ((h < 9 \/ 20 <= h) /\ fst (get_campus_status h) = off_hours_profile)).
  { destruct (Z_lt_ge_dec h 9) as [Ha | Ha].
    - right; right. split; [ lia | apply status_data_off_hours; lia ].
    - destruct (Z_lt_ge_dec h 16) as [Hb | Hb].
      + left. split; [ lia | apply status_data_peak; lia ].
      + destruct (Z_lt_ge_dec h 20) as [Hc | Hc].
        * right; left. split; [ lia | apply status_data_evening; lia ].
        * right; right. split; [ lia | apply status_data_off_hours; lia ]. }
  split.
  { split; [ intros E | apply status_data_peak ].
    destruct Hcases as [[Hr _] | [[_ E'] | [_ E']]];
      [ exact Hr | | ]; rewrite E in E'; congruence. }
  split.
  { split; [ intros E | apply status_data_evening ].
    destruct Hcases as [[_ E'] | [[Hr _] | [_ E']]];
      [ | exact Hr | ]; rewrite E in E'; congruence. }
  split.
  { split; [ intros E | apply status_data_off_hours ].
    destruct Hcases as [[_ E'] | [[_ E'] | [Hr _]]];
      [ | | exact Hr ]; rewrite E in E'; congruence. }
  repeat split; reflexivity.
Qed.

Lemma profile_keys :
  map fst peak_profile = status_keys /\
  map fst evening_profile = status_keys /\
  map fst off_hours_profile = status_keys.
Proof. repeat split; reflexivity. Qed.

Lemma dict_of_strs_keys (d : list (pystr * pystr)) :
  match dict_of_strs d with
  | PyDict items => map fst items = map fst d /\ Forall is_str (map snd items)
  | _ => False
  end.
Proof.
  unfold dict_of_strs. split.
  - rewrite map_map. reflexivity.
  - rewrite map_map. apply Forall_forall. intros v Hv.
    apply in_map_iff in Hv. destruct Hv as (kv & <- & _).
    exists (snd kv). reflexivity.
Qed.

(** C8.  For every hour the status route answers with status 200 and a
    mapping whose keys are exactly the five documented metric names,
    each mapped to a string. *)
Theorem status_five_keys (h : Z) :
  status_code (status h) = 200 /\
  exists items,
    json (status h) = PyDict items /\
    map fst items = status_keys /\
    List.length items = 5%nat /\
    Forall is_str (map snd items).
Proof.
  rewrite status_eq. split; [ reflexivity | ].
  pose proof (dict_of_strs_keys (fst (get_campus_status h))) as Hd.
  unfold jsonify, json.
  destruct (dict_of_strs (fst (get_campus_status h)));
    try contradiction.
  destruct Hd as [Hk Hs]. exists items.
  assert (Hkeys : map fst items = status_keys).
  { rewrite Hk.
    destruct (status_data_cases h) as [E | [E | E]]; rewrite E;
      apply profile_keys. }
  repeat split; try assumption.
  rewrite <- (List.length_map fst), Hkeys. reflexivity.
Qed.

(** C9.  For every hour the text rendering is the label line followed
    by the indented JSON text of the very mapping returned as the
    snapshot, closed by a line feed; that text shows each metric name
    and value verbatim between quotes, and the status route serves the
    same mapping. *)
Theorem status_text_agrees (h : Z) :
  let status_data := fst (get_campus_status h) in
  let status_text := snd (get_campus_status h) in
  status_text = status_label ++ Json.dumps_indent2 status_data ++ nl /\
  Json.dumps_indent2 status_data = status_block status_data /\
  map fst status_data = status_keys /\
  json (status h) = dict_of_strs status_data.
Proof.
  cbv zeta. split; [ apply status_text_eq | ].
  split; [ | split ].
  - destruct (status_data_cases h) as [E | [E | E]]; rewrite E;
      apply profile_blocks.
  - destruct (status_data_cases h) as [E | [E | E]]; rewrite E;
      apply profile_keys.
  - rewrite status_eq. reflexivity.
Qed.

(* ===================================================================== *)
(** ** The chat handler *)
(* ===================================================================== *)

(** ASCII text is written by every terminal. *)
Lemma can_write_app (out : Terminal) (a b : pystr) :
  can_write out (a ++ b) = can_write out a && can_write out b.
Proof. unfold can_write. apply forallb_app. Qed.

Lemma py_print_prefixed (out : Terminal) (literal s : pystr) :
  can_write out literal = true ->
  py_print out (literal ++ s) =
  if can_write out s then Ok tt else Raise UnicodeEncodeError.
Proof.
  intros H. unfold py_print. rewrite can_write_app, H. reflexivity.
Qed.

Section Handler.

Variable out : Terminal.
Variable TD : pystr.
Variable hour : Z.

Lemma chat_except_handled (e : exn) (sent : list api_request) :
  chat_except out e sent = (handled out e, sent).
Proof.
  unfold chat_except, handled, bind, lift, ret, raise.
  destruct (isinstance_APIError e) eqn:Hapi.
  - destruct e; try discriminate Hapi. simpl isinstance_Exception. cbv iota.
    rewrite py_print_prefixed by reflexivity.
    destruct (can_write out (str_exn (APIError str_e))); reflexivity.
  - destruct (isinstance_Exception e) eqn:Hexc; [ | reflexivity ].
    rewrite py_print_prefixed by reflexivity.
    destruct (can_write out (str_exn e)); [ | reflexivity ].
    destruct e; try discriminate Hapi; reflexivity.
Qed.

Lemma error_response_generic (e : exn) :
  isinstance_APIError e = false -> error_response e = generic_response.
Proof. destruct e; simpl; intros H; try reflexivity; discriminate. Qed.

Lemma chat_try_unfold (c : Client) (request : Request) (sent : list api_request) :
  chat_try c TD hour request sent =
  match prepare TD hour request with
  | Raise e => (Raise e, sent)
  | Ok q =>
      (match generate_content c q with
       | Ok response => reply response
       | Raise e => Raise e
       end, sent ++ [q])
  end.
Proof.
  unfold chat_try, prepare, bind, lift.
  destruct (get_json request) as [data | e]; [ | reflexivity ].
  destruct (py_get data (py "message") (PyStr [])) as [um | e]; [ | reflexivity ].
  destruct (py_get data (py "history") (PyList [])) as [hs | e]; [ | reflexivity ].
  unfold request_for.
  destruct (get_campus_status hour) as [sd st]; simpl snd.
  destruct (py_iter hs) as [msgs | e]; [ | reflexivity ].
  destruct (translate_history msgs []) as [turns | e]; [ | reflexivity ].
  unfold call_generate_content, user_turn.
  destruct (generate_content c _) as [response | e]; [ | reflexivity ].
  unfold reply.
  destruct (extract response) as [[txt srcs] | e]; [ | reflexivity ].
  destruct (negb (opt_str_truthy txt)); [ reflexivity | ].
  destruct (serialise _) as [body | e]; reflexivity.
Qed.

(** The handler answers with what the [try] block returned, or with
    what becomes of its exception. *)
Lemma chat_some (c : Client) (request : Request) (sent : list api_request) :
  chat out (Some c) TD hour request sent =
  (settle out (fst (chat_try c TD hour request sent)),
   snd (chat_try c TD hour request sent)).
Proof.
  unfold chat, try_except.
  destruct (chat_try c TD hour request sent) as [[resp | e] sent'].
  - reflexivity.
  - rewrite chat_except_handled. reflexivity.
Qed.

Lemma chat_none (request : Request) (sent : list api_request) :
  chat out None TD hour request sent = (Ok generic_response, sent).
Proof. reflexivity. Qed.

(** The whole handler, from a fresh request. *)
Lemma chat_run (c : Client) (request : Request) :
  run (chat out (Some c) TD hour request) =
  match prepare TD hour request with
  | Raise e => (handled out e, [])
  | Ok q =>
      (settle out (match generate_content c q with
                   | Ok response => reply response
                   | Raise e => Raise e
                   end), [q])
  end.
Proof.
  unfold run. rewrite chat_some, chat_try_unfold.
  destruct (prepare TD hour request) as [q | e]; reflexivity.
Qed.

Lemma chat_calls_inv (c : Client) (request : Request) (q : api_request) :
  api_calls (chat out (Some c) TD hour request) = [q] ->
  prepare TD hour request = Ok q.
Proof.
  unfold api_calls. rewrite chat_run.
  destruct (prepare TD hour request) as [q' | e]; simpl; intros H.
  - congruence.
  - discriminate.
Qed.

Lemma chat_outcome_of_call (c : Client) (request : Request) (q : api_request) :
  api_calls (chat out (Some c) TD hour request) = [q] ->
  outcome (chat out (Some c) TD hour request) =
  settle out (match generate_content c q with
              | Ok response => reply response
              | Raise e => Raise e
              end).
Proof.
  intros H. apply chat_calls_inv in H.
  unfold outcome. rewrite chat_run, H. reflexivity.
Qed.

End Handler.

(* --------------------------------------------------------------------- *)
(** *** The history loop *)

Lemma translate_history_turns (messages : list pyval) :
  forall acc,
    Forall has_role_and_text messages ->
    exists turns,
      translate_history messages acc = Ok (acc ++ turns) /\
      Forall2 turn_for messages turns.
Proof.
  induction messages as [ | m rest IH ]; intros acc Hall.
  - exists []. split; [ simpl; rewrite app_nil_r; reflexivity | constructor ].
  - inversion Hall as [ | m' rest' Hm Hrest ]; subst.
    destruct Hm as (turn & role & text & Hr & Ht & ->).
    destruct (IH (acc ++ [api_turn role text]) Hrest) as (turns & Heq & Hturns).
    exists (service_turn role text :: turns). split.
    + simpl. rewrite Hr, Ht, Heq, <- app_assoc. reflexivity.
    + constructor; [ exists role, text; auto | exact Hturns ].
Qed.

Lemma translate_history_raises (pre post : list pyval) (m : pyval) (e : exn) :
  forall acc,
    Forall has_role_and_text pre ->
    (py_getitem m (py "role") = Raise e \/
     (exists role, py_getitem m (py "role") = Ok role) /\
     py_getitem m (py "text") = Raise e) ->
    translate_history (pre ++ m :: post) acc = Raise e.
Proof.
  induction pre as [ | p pre IH ]; intros acc Hall Hm.
  - simpl. destruct Hm as [Hr | [[role Hr] Ht]].
    + rewrite Hr. reflexivity.
    + rewrite Hr, Ht. reflexivity.
  - inversion Hall as [ | p' pre' Hp Hpre ]; subst.
    destruct Hp as (turn & role & text & Hr & Ht & ->).
    simpl. rewrite Hr, Ht. apply IH; assumption.
Qed.

Lemma translate_history_inv (messages : list pyval) :
  forall acc r,
    translate_history messages acc = Ok r ->
    exists turns, r = acc ++ turns /\ Forall2 turn_for messages turns.
Proof.
  induction messages as [ | m rest IH ]; intros acc r H; simpl in H.
  - injection H as <-. exists []. rewrite app_nil_r. split; constructor.
  - destruct (py_getitem m (py "role")) as [role | e] eqn:Hr; [ | discriminate ].
    destruct (py_getitem m (py "text")) as [text | e] eqn:Ht; [ | discriminate ].
    destruct (IH _ _ H) as (turns & -> & Hturns).
    exists (service_turn role text :: turns). split.
    + rewrite <- app_assoc. reflexivity.
    + constructor; [ exists role, text; auto | exact Hturns ].
Qed.

Lemma turn_for_has (m t : pyval) : turn_for m t -> has_role_and_text m.
Proof. intros H. exists t. exact H. Qed.

Lemma turn_for_is_turn (m t : pyval) : turn_for m t -> is_turn t.
Proof. intros (role & text & _ & _ & ->). exists role, text. reflexivity. Qed.

Lemma Forall2_turn_for_left (ms ts : list pyval) :
  Forall2 turn_for ms ts -> Forall has_role_and_text ms.
Proof.
  induction 1 as [ | m t ms ts H _ IH ]; constructor;
    [ exact (turn_for_has m t H) | exact IH ].
Qed.

Lemma Forall2_turn_for_right (ms ts : list pyval) :
  Forall2 turn_for ms ts -> Forall is_turn ts.
Proof.
  induction 1 as [ | m t ms ts H _ IH ]; constructor;
    [ exact (turn_for_is_turn m t H) | exact IH ].
Qed.

Lemma py_get_history (items : list (pystr * pyval)) :
  py_get (PyDict items) (py "history") (PyList []) = Ok (history_value items).
Proof.
  unfold py_get, history_value.
  destruct (dict_lookup items (py "history")); reflexivity.
Qed.

Lemma py_get_message (items : list (pystr * pyval)) :
  py_get (PyDict items) (py "message") (PyStr []) = Ok (message_value items).
Proof.
  unfold py_get, message_value.
  destruct (dict_lookup items (py "message")); reflexivity.
Qed.

(** What it takes for the [try] block to reach the call. *)
Lemma prepare_ok_inv (TD : pystr) (hour : Z) (request : Request)
    (q : api_request) :
  prepare TD hour request = Ok q ->
  exists items messages turns,
    get_json request = Ok (PyDict items) /\
    py_iter (history_value items) = Ok messages /\
    Forall2 turn_for messages turns /\
    q = request_for TD hour
          (turns ++ [service_turn (PyStr (py "user")) (message_value items)]).
Proof.
  unfold prepare.
  destruct (get_json request) as [data | e]; [ | discriminate ].
  destruct data as [ | b | z | f | s | xs | items ]; try discriminate.
  rewrite py_get_message, py_get_history.
  destruct (py_iter (history_value items)) as [messages | e] eqn:Hi;
    [ | discriminate ].
  destruct (translate_history messages []) as [r | e] eqn:Ht; [ | discriminate ].
  intros H. injection H as <-.
  destruct (translate_history_inv messages [] r Ht) as (turns & -> & Hturns).
  exists items, messages, turns. repeat split; try assumption; reflexivity.
Qed.

Lemma prepare_ok_intro (TD : pystr) (hour : Z) (request : Request)
    (items : list (pystr * pyval)) (messages : list pyval) :
  get_json request = Ok (PyDict items) ->
  py_iter (history_value items) = Ok messages ->
  Forall has_role_and_text messages ->
  exists q, prepare TD hour request = Ok q.
Proof.
  intros Hd Hi Hall. unfold prepare.
  rewrite Hd, py_get_message, py_get_history, Hi.
  destruct (translate_history_turns messages [] Hall) as (turns & -> & _).
  eexists. reflexivity.
Qed.

Lemma prepare_turns (TD : pystr) (hour : Z) (request : Request)
    (data user_message : pyval) (history turns : list pyval) :
  get_json request = Ok data ->
  py_get data (py "message") (PyStr []) = Ok user_message ->
  py_get data (py "history") (PyList []) = Ok (PyList history) ->
  translate_history history [] = Ok turns ->
  prepare TD hour request =
  Ok (request_for TD hour
        (turns ++ [service_turn (PyStr (py "user")) user_message])).
Proof.
  intros Hd Hm Hh Ht. unfold prepare.
  rewrite Hd, Hm, Hh. simpl py_iter. cbv iota. rewrite Ht. reflexivity.
Qed.

Lemma chat_calls_of_prepare (out : Terminal) (c : Client) (TD : pystr)
    (hour : Z) (request : Request) (q : api_request) :
  prepare TD hour request = Ok q ->
  api_calls (chat out (Some c) TD hour request) = [q].
Proof.
  intros H. unfold api_calls. rewrite chat_run, H. reflexivity.
Qed.

Lemma api_calls_cases (out : Terminal) (c : Client) (TD : pystr) (hour : Z)
    (request : Request) :
  (exists e, prepare TD hour request = Raise e /\
             run (chat out (Some c) TD hour request) = (handled out e, [])) \/
  (exists q, prepare TD hour request = Ok q /\
             api_calls (chat out (Some c) TD hour request) = [q]).
Proof.
  unfold api_calls. rewrite chat_run.
  destruct (prepare TD hour request) as [q | e].
  - right. exists q. split; reflexivity.
  - left. exists e. split; reflexivity.
Qed.

(** C1.  For every history whose turns each have a role and a text,
    and every new message, the handler sends one request whose turn
    sequence has [len(history) + 1] entries: for each history turn, in
    order, a dictionary with its role under the key role and, under
    the key parts, a list of one dictionary with its text under the
    key text; then such a turn with the role user and the new message
    as text. *)
Theorem chat_submits_history (out : Terminal) (c : Client) (TD : pystr)
    (hour : Z) (request : Request) (data user_message : pyval)
    (history : list pyval) :
  get_json request = Ok data ->
  py_get data (py "message") (PyStr []) = Ok user_message ->
  py_get data (py "history") (PyList []) = Ok (PyList history) ->
  Forall has_role_and_text history ->
  exists q turns,
    api_calls (chat out (Some c) TD hour request) = [q] /\
    contents q =
      PyList (turns
              ++ [PyDict [ (py "role", PyStr (py "user"));
                           (py "parts",
                            PyList [PyDict [(py "text", user_message)]]) ]]) /\
    List.length
      (turns
       ++ [PyDict [ (py "role", PyStr (py "user"));
                    (py "parts",
                     PyList [PyDict [(py "text", user_message)]]) ]]) =
      (List.length history + 1)%nat /\
    (forall i message,
       nth_error history i = Some message ->
       exists role text,
         py_getitem message (py "role") = Ok role /\
         py_getitem message (py "text") = Ok text /\
         nth_error turns i =
           Some (PyDict [ (py "role", role);
                          (py "parts",
                           PyList [PyDict [(py "text", text)]]) ])).
Proof.
  intros Hd Hm Hh Hall.
  destruct (translate_history_turns history [] Hall) as (turns & Ht & Hturns).
  simpl in Ht.
  exists (request_for TD hour
            (turns ++ [service_turn (PyStr (py "user")) user_message])), turns.
  split; [ | split; [ reflexivity | split ] ].
  - apply chat_calls_of_prepare.
    apply (prepare_turns TD hour request data user_message history turns);
      assumption.
  - rewrite List.length_app. simpl.
    rewrite (Forall2_length Hturns). reflexivity.
  - clear Ht Hall Hh. induction Hturns as [ | m t ms ts Hmt _ IH ];
      intros i message Hnth.
    + destruct i; discriminate Hnth.
    + destruct i as [ | i ].
      * injection Hnth as <-.
        destruct Hmt as (role & text & Hr & Htx & ->).
        exists role, text. repeat split; assumption || reflexivity.
      * exact (IH i message Hnth).
Qed.

Lemma chat_submits_history_witness :
  exists q turns,
    api_calls (chat Samples.utf8
                 (Some (Samples.answering Samples.response_grounded))
                 Samples.bus_data 10 Samples.request_full) = [q] /\
    contents q =
      PyList (turns
              ++ [PyDict [ (py "role", PyStr (py "user"));
                           (py "parts",
                            PyList [PyDict [(py "text", Samples.question)]]) ]]) /\
    List.length
      (turns
       ++ [PyDict [ (py "role", PyStr (py "user"));
                    (py "parts",
                     PyList [PyDict [(py "text", Samples.question)]]) ]]) =
      (List.length Samples.two_turns + 1)%nat /\
    (forall i message,
       nth_error Samples.two_turns i = Some message ->
       exists role text,
         py_getitem message (py "role") = Ok role /\
         py_getitem message (py "text") = Ok text /\
         nth_error turns i =
           Some (PyDict [ (py "role", role);
                          (py "parts",
                           PyList [PyDict [(py "text", text)]]) ])).
Proof.
  apply (chat_submits_history Samples.utf8 _ _ 10 Samples.request_full
           Samples.body_full).
  - reflexivity.
  - reflexivity.
  - reflexivity.
  - constructor; [ | constructor; [ | constructor ] ].
    + exists (service_turn (PyStr (py "user")) (PyStr (py "Hello"))).
      exists (PyStr (py "user")), (PyStr (py "Hello")).
      repeat split; reflexivity.
    + exists (service_turn (PyStr (py "model"))
                (PyStr (py "Hi, how can I help?"))).
      exists (PyStr (py "model")), (PyStr (py "Hi, how can I help?")).
      repeat split; reflexivity.
Defined.

(** C10.  A body that omits the message or the history does not make
    the handler fail on the missing field: the message defaults to the
    empty string and the history to the empty list, and the request
    goes on to the model service.  Without a history the turns sent
    are the single user turn; without a message that user turn has the
    empty string as its text; without both the contents sent are one
    dictionary with the role user and one part whose text is the
    empty string. *)
Theorem chat_defaults (out : Terminal) (c : Client) (TD : pystr) (hour : Z)
    (request : Request) (items : list (pystr * pyval)) :
  get_json request = Ok (PyDict items) ->
  (dict_lookup items (py "message") = None ->
   py_get (PyDict items) (py "message") (PyStr []) = Ok (PyStr [])) /\
  (dict_lookup items (py "history") = None ->
   py_get (PyDict items) (py "history") (PyList []) = Ok (PyList [])) /\
  (dict_lookup items (py "history") = None ->
   forall user_message,
     py_get (PyDict items) (py "message") (PyStr []) = Ok user_message ->
     api_calls (chat out (Some c) TD hour request) =
       [request_for TD hour
          [PyDict [ (py "role", PyStr (py "user"));
                    (py "parts",
                     PyList [PyDict [(py "text", user_message)]]) ]]]) /\
  (dict_lookup items (py "message") = None ->
   forall history,
     dict_lookup items (py "history") = Some (PyList history) ->
     Forall has_role_and_text history ->
     exists turns,
       Forall2 turn_for history turns /\
       api_calls (chat out (Some c) TD hour request) =
         [request_for TD hour
            (turns
             ++ [PyDict [ (py "role", PyStr (py "user"));
                          (py "parts",
                           PyList [PyDict [(py "text", PyStr [])]]) ]])]) /\
  (dict_lookup items (py "message") = None ->
   dict_lookup items (py "history") = None ->
   map contents (api_calls (chat out (Some c) TD hour request)) =
     [PyList [PyDict [ (py "role", PyStr (py "user"));
                       (py "parts",
                        PyList [PyDict [(py "text", PyStr [])]]) ]]]).
Proof.
  intros Hd.
  assert (Hmsg : dict_lookup items (py "message") = None ->
                 py_get (PyDict items) (py "message") (PyStr []) = Ok (PyStr [])).
  { intros H. unfold py_get. rewrite H. reflexivity. }
  assert (Hhis : dict_lookup items (py "history") = None ->
                 py_get (PyDict items) (py "history") (PyList []) = Ok (PyList [])).
  { intros H. unfold py_get. rewrite H. reflexivity. }
  assert (Hone : dict_lookup items (py "history") = None ->
    forall user_message,
      py_get (PyDict items) (py "message") (PyStr []) = Ok user_message ->
      api_calls (chat out (Some c) TD hour request) =
        [request_for TD hour
           [service_turn (PyStr (py "user")) user_message]]).
  { intros H um Hum. apply chat_calls_of_prepare.
    apply (prepare_turns TD hour request (PyDict items) um [] []);
      auto. }
  split; [ exact Hmsg | split; [ exact Hhis | split; [ exact Hone | split ] ] ].
  - intros Hm history Hh Hall.
    destruct (translate_history_turns history [] Hall) as (turns & Ht & Hturns).
    exists turns. split; [ exact Hturns | ].
    apply chat_calls_of_prepare.
    apply (prepare_turns TD hour request (PyDict items) (PyStr []) history turns);
      auto.
    unfold py_get. rewrite Hh. reflexivity.
  - intros Hm Hh. rewrite (Hone Hh (PyStr []) (Hmsg Hm)). reflexivity.
Qed.

Lemma chat_defaults_witness :
  map contents
    (api_calls (chat Samples.utf8
                  (Some (Samples.answering Samples.response_grounded))
                  Samples.bus_data 10 Samples.request_bare)) =
  [PyList [PyDict [ (py "role", PyStr (py "user"));
                    (py "parts",
                     PyList [PyDict [(py "text", PyStr [])]]) ]]].
Proof.
  destruct (chat_defaults Samples.utf8
              (Samples.answering Samples.response_grounded)
              Samples.bus_data 10 Samples.request_bare [] eq_refl)
    as (_ & _ & _ & _ & Hboth).
  apply Hboth; reflexivity.
Defined.

(* --------------------------------------------------------------------- *)
(** *** Serialising the answer *)

Lemma serialise_OList (xs : list pyobj) :
  serialise (OList xs) =
  match serialise_each xs with
  | Raise e => Raise e
  | Ok vs => Ok (PyList vs)
  end.
Proof.
  simpl.
  assert (H : forall l,
    (fix each (xs : list pyobj) : result (list pyval) :=
       match xs with
       | [] => Ok []
       | x :: rest =>
           match serialise x with
           | Raise e => Raise e
           | Ok v =>
               match each rest with
               | Raise e => Raise e
               | Ok vs => Ok (v :: vs)
               end
           end
       end) l = serialise_each l).
  { induction l as [ | x l IH ]; simpl; [ reflexivity | ].
    rewrite IH. reflexivity. }
  rewrite H. reflexivity.
Qed.

Lemma serialise_ODict (items : list (pystr * pyobj)) :
  serialise (ODict items) =
  match serialise_items items with
  | Raise e => Raise e
  | Ok vs => Ok (PyDict vs)
  end.
Proof.
  simpl.
  assert (H : forall l,
    (fix each (items : list (pystr * pyobj))
       : result (list (pystr * pyval)) :=
       match items with
       | [] => Ok []
       | (k, x) :: rest =>
           match serialise x with
           | Raise e => Raise e
           | Ok v =>
               match each rest with
               | Raise e => Raise e
               | Ok vs => Ok ((k, v) :: vs)
               end
           end
       end) l = serialise_items l).
  { induction l as [ | [k x] l IH ]; simpl; [ reflexivity | ].
    rewrite IH. reflexivity. }
  rewrite H. reflexivity.
Qed.

(** Induction on a value, through the lists it is built from. *)
Lemma pyobj_nested_ind (P : pyobj -> Prop) :
  P ONone ->
  (forall b, P (OBool b)) ->
  (forall z, P (OInt z)) ->
  (forall s, P (OStr s)) ->
  (forall xs, Forall P xs -> P (OList xs)) ->
  (forall items, Forall (fun kv => P (snd kv)) items -> P (ODict items)) ->
  (forall attrs, P (OObject attrs)) ->
  forall o, P o.
Proof.
  intros HN HB HI HS HL HD HO.
  fix IH 1. intros o.
  destruct o as [ | b | z | s | xs | items | attrs ].
  - exact HN.
  - apply HB.
  - apply HI.
  - apply HS.
  - apply HL. induction xs as [ | x xs IHxs ]; constructor;
      [ apply IH | exact IHxs ].
  - apply HD. induction items as [ | [k x] items IHitems ]; constructor;
      [ apply IH | exact IHitems ].
  - apply HO.
Qed.

Lemma serialise_raises (o : pyobj) (e : exn) :
  serialise o = Raise e -> e = TypeError.
Proof.
  revert e. induction o as [ | b | z | s | xs IH | items IH | attrs ]
    using pyobj_nested_ind; intros e; try discriminate.
  - rewrite serialise_OList.
    assert (Heach : forall e1, serialise_each xs = Raise e1 -> e1 = TypeError).
    { induction IH as [ | x xs Hx _ IHxs ]; intros e1 H; simpl in H.
      - discriminate.
      - destruct (serialise x) as [v | e2] eqn:Hsx.
        + destruct (serialise_each xs) as [vs | e3];
            [ discriminate | ].
          injection H as <-. apply IHxs. reflexivity.
        + injection H as <-. apply Hx. reflexivity. }
    destruct (serialise_each xs) as [vs | e1] eqn:Hs; [ discriminate | ].
    intros H. injection H as <-. apply Heach. reflexivity.
  - rewrite serialise_ODict.
    assert (Heach : forall e1, serialise_items items = Raise e1 -> e1 = TypeError).
    { induction IH as [ | [k x] items Hx _ IHitems ]; intros e1 H; simpl in H.
      - discriminate.
      - destruct (serialise x) as [v | e2] eqn:Hsx.
        + destruct (serialise_items items) as [vs | e3];
            [ discriminate | ].
          injection H as <-. apply IHitems. reflexivity.
        + injection H as <-. apply Hx. exact Hsx. }
    destruct (serialise_items items) as [vs | e1] eqn:Hs; [ discriminate | ].
    intros H. injection H as <-. apply Heach. reflexivity.
  - simpl. intros H. injection H as <-. reflexivity.
Qed.

Lemma serialise_truthy (o : pyobj) (v : pyval) :
  serialise o = Ok v -> obj_truthy o = true ->
  v <> PyNone /\ v <> PyStr [].
Proof.
  destruct o as [ | b | z | s | xs | items | attrs ]; intros Hs Ht.
  - discriminate Ht.
  - injection Hs as <-. split; discriminate.
  - injection Hs as <-. split; discriminate.
  - injection Hs as <-. destruct s; [ discriminate Ht | split; discriminate ].
  - rewrite serialise_OList in Hs.
    destruct (serialise_each xs); [ | discriminate ].
    injection Hs as <-. split; discriminate.
  - rewrite serialise_ODict in Hs.
    destruct (serialise_items items); [ | discriminate ].
    injection Hs as <-. split; discriminate.
  - discriminate Hs.
Qed.

Lemma serialise_entry (o : pyobj) (v : pyval) :
  is_entry o -> serialise o = Ok v -> is_source v.
Proof.
  intros (u & t & -> & Hu & Ht) Hs.
  rewrite serialise_ODict in Hs. simpl in Hs.
  destruct (serialise u) as [ju | e] eqn:Hju; [ | discriminate ].
  destruct (serialise t) as [jt | e] eqn:Hjt; [ | discriminate ].
  injection Hs as <-.
  destruct (serialise_truthy u ju Hju Hu) as [Hu1 Hu2].
  destruct (serialise_truthy t jt Hjt Ht) as [Ht1 Ht2].
  exists ju, jt. repeat split; assumption.
Qed.

Lemma serialise_entries (objs : list pyobj) :
  forall vs,
    Forall is_entry objs -> serialise_each objs = Ok vs ->
    Forall is_source vs.
Proof.
  induction objs as [ | o objs IH ]; intros vs Hall Hs; simpl in Hs.
  - injection Hs as <-. constructor.
  - inversion Hall as [ | o' objs' Ho Hobjs ]; subst.
    destruct (serialise o) as [v | e] eqn:Hv; [ | discriminate ].
    destruct (serialise_each objs) as [vs' | e] eqn:Hvs; [ | discriminate ].
    injection Hs as <-. constructor.
    + exact (serialise_entry o v Ho Hv).
    + exact (IH vs' Hobjs eq_refl).
Qed.

(** The body of a success, once serialised. *)
Lemma serialise_body (t : pystr) (sources : list pyobj) :
  serialise (ODict [ (py "response", OStr t); (py "sources", OList sources) ]) =
  match serialise_each sources with
  | Raise e => Raise e
  | Ok vs => Ok (success_body t vs)
  end.
Proof.
  rewrite serialise_ODict. unfold serialise_items.
  rewrite serialise_OList.
  destruct (serialise_each sources); reflexivity.
Qed.

(* --------------------------------------------------------------------- *)
(** *** Text and sources *)

Lemma getattr_raises (o : pyobj) (name : pystr) (e : exn) :
  getattr o name = Raise e -> e = AttributeError.
Proof.
  destruct o as [ | b | z | s | xs | items | attrs ]; simpl;
    try (intros H; injection H as <-; reflexivity).
  - destruct (str_eqb name (py "title")); [ discriminate | ].
    intros H; injection H as <-; reflexivity.
  - destruct (attr_lookup attrs name); [ discriminate | ].
    intros H; injection H as <-; reflexivity.
Qed.

Lemma obj_iter_raises (o : pyobj) (e : exn) :
  obj_iter o = Raise e -> e = TypeError.
Proof.
  destruct o; simpl; try discriminate;
    intros H; injection H as <-; reflexivity.
Qed.

Lemma has_citation_raises (attr : pyobj) (e : exn) :
  has_citation attr = Raise e -> e = AttributeError.
Proof.
  unfold has_citation.
  destruct (negb (obj_truthy (getattr_default attr (py "web"))));
    [ discriminate | ].
  destruct (getattr attr (py "web")) as [web | e1] eqn:Hw.
  - destruct (getattr web (py "uri")) as [uri | e2] eqn:Hu.
    + destruct (negb (obj_truthy uri)); [ discriminate | ].
      destruct (getattr web (py "title")) as [title | e3] eqn:Ht;
        [ discriminate | ].
      intros H. injection H as <-. exact (getattr_raises _ _ _ Ht).
    + intros H. injection H as <-. exact (getattr_raises _ _ _ Hu).
  - intros H. injection H as <-. exact (getattr_raises _ _ _ Hw).
Qed.

Lemma has_citation_entry (attr : pyobj) :
  has_citation attr = Ok true ->
  exists entry, source_entry attr = Ok entry /\ is_entry entry.
Proof.
  unfold has_citation, source_entry.
  destruct (negb (obj_truthy (getattr_default attr (py "web"))));
    [ discriminate | ].
  destruct (getattr attr (py "web")) as [web | e1]; [ | discriminate ].
  destruct (getattr web (py "uri")) as [uri | e2]; [ | discriminate ].
  destruct (obj_truthy uri) eqn:Hu; simpl; [ | discriminate ].
  destruct (getattr web (py "title")) as [title | e3]; [ | discriminate ].
  intros H. injection H as Ht.
  eexists. split; [ reflexivity | ].
  exists uri, title. repeat split; assumption.
Qed.

Lemma sources_of_shape (attrs : list pyobj) :
  forall objs, sources_of attrs = Ok objs -> Forall is_entry objs.
Proof.
  induction attrs as [ | attr rest IH ]; intros objs H; simpl in H.
  - injection H as <-. constructor.
  - destruct (has_citation attr) as [[ | ] | e] eqn:Hc; [ | | discriminate ].
    + destruct (has_citation_entry attr Hc) as (entry & He & Hentry).
      rewrite He in H.
      destruct (sources_of rest) as [entries | e]; [ | discriminate ].
      injection H as <-. constructor; [ exact Hentry | apply IH; reflexivity ].
    + apply IH. exact H.
Qed.

Lemma sources_of_raises (attrs : list pyobj) (e : exn) :
  sources_of attrs = Raise e -> e = AttributeError.
Proof.
  induction attrs as [ | attr rest IH ]; simpl; [ discriminate | ].
  destruct (has_citation attr) as [[ | ] | e1] eqn:Hc.
  - destruct (has_citation_entry attr Hc) as (entry & He & _).
    rewrite He.
    destruct (sources_of rest) as [entries | e2]; [ discriminate | ].
    intros H. injection H as <-. apply IH. reflexivity.
  - exact IH.
  - intros H. injection H as <-. exact (has_citation_raises attr e1 Hc).
Qed.

Lemma extract_inv (r : GenerateContentResponse) (txt : option pystr)
    (srcs : list pyobj) :
  extract r = Ok (txt, srcs) ->
  opt_str_truthy txt = true ->
  exists cand t,
    txt = Some t /\ answers r cand t /\ Forall is_entry srcs.
Proof.
  intros Hex Htrue. unfold extract in Hex.
  destruct (candidates r) as [[ | c rest] | ] eqn:Hc;
    try (injection Hex as <- _; discriminate Htrue).
  destruct (content c) as [ct | ] eqn:Hct;
    try (injection Hex as <- _; discriminate Htrue).
  destruct (parts ct) as [[ | p ps] | ] eqn:Hp; try discriminate Hex.
  simpl first_item in Hex. cbv iota zeta in Hex.
  assert (Hsrcs : text p = txt /\ Forall is_entry srcs).
  { destruct (obj_truthy (grounding_metadata c)
              && obj_truthy (getattr_default (grounding_metadata c)
                               (py "grounding_attributions"))).
    - destruct (getattr (grounding_metadata c) (py "grounding_attributions"))
        as [attributions | e]; [ | discriminate ].
      destruct (obj_iter attributions) as [attrs | e]; [ | discriminate ].
      destruct (sources_of attrs) as [sources | e] eqn:Hs; [ | discriminate ].
      injection Hex as <- <-. split; [ reflexivity | ].
      exact (sources_of_shape attrs sources Hs).
    - injection Hex as <- <-. split; [ reflexivity | constructor ]. }
  destruct Hsrcs as [<- Hentries].
  destruct (text p) as [[ | x t] | ] eqn:Ht; try discriminate Htrue.
  exists c, (x :: t). split; [ reflexivity | split; [ | exact Hentries ] ].
  exists rest, ct, p, ps. repeat split; auto. discriminate.
Qed.

Lemma extract_raises (r : GenerateContentResponse) (e : exn) :
  extract r = Raise e ->
  e = TypeError \/ e = AttributeError \/ e = IndexError.
Proof.
  unfold extract.
  destruct (candidates r) as [[ | c rest] | ]; try discriminate.
  destruct (content c) as [ct | ]; try discriminate.
  destruct (parts ct) as [[ | p ps] | ]; simpl first_item; cbv iota zeta.
  - intros H. injection H as <-. right; right. reflexivity.
  - destruct (obj_truthy (grounding_metadata c)
              && obj_truthy (getattr_default (grounding_metadata c)
                               (py "grounding_attributions")));
      [ | discriminate ].
    destruct (getattr (grounding_metadata c) (py "grounding_attributions"))
      as [attributions | e1] eqn:Hg.
    + destruct (obj_iter attributions) as [attrs | e2] eqn:Hi.
      * destruct (sources_of attrs) as [sources | e3] eqn:Hs;
          [ discriminate | ].
        intros H. injection H as <-. right; left.
        exact (sources_of_raises attrs e3 Hs).
      * intros H. injection H as <-. left.
        exact (obj_iter_raises attributions e2 Hi).
    + intros H. injection H as <-. right; left.
      exact (getattr_raises _ _ _ Hg).
  - intros H. injection H as <-. left. reflexivity.
Qed.

Lemma extract_no_answer (r : GenerateContentResponse) :
  no_answer r -> extract r = Ok (Some [], []).
Proof.
  unfold extract.
  intros [H | [H | (c & rest & H & Hc)]]; rewrite H; try reflexivity.
  rewrite Hc. reflexivity.
Qed.

Lemma reply_no_answer (r : GenerateContentResponse) :
  no_answer r ->
  reply r = Raise (Exception_ (py "API returned an empty text response.")).
Proof.
  intros H. unfold reply. rewrite (extract_no_answer r H). reflexivity.
Qed.

Lemma reply_ok_inv (r : GenerateContentResponse) (resp : Response) :
  reply r = Ok resp ->
  exists cand t srcs,
    answers r cand t /\
    Forall is_source srcs /\
    resp = jsonify (success_body t srcs).
Proof.
  unfold reply.
  destruct (extract r) as [[txt sources] | e] eqn:Hex; [ | discriminate ].
  destruct (opt_str_truthy txt) eqn:Htrue; simpl negb; cbv iota;
    [ | discriminate ].
  destruct (extract_inv r txt sources Hex Htrue) as (cand & t & -> & Hans & Hent).
  simpl opt_str_obj. rewrite serialise_body.
  destruct (serialise_each sources) as [vs | e] eqn:Hvs; [ | discriminate ].
  intros H. injection H as <-.
  exists cand, t, vs. repeat split; try assumption.
  exact (serialise_entries sources vs Hent Hvs).
Qed.

Lemma reply_raises (r : GenerateContentResponse) (e : exn) :
  reply r = Raise e -> own_error e.
Proof.
  unfold reply, own_error.
  destruct (extract r) as [[txt sources] | e1] eqn:Hex.
  - destruct (negb (opt_str_truthy txt)).
    + intros H. injection H as <-. right; right; right. reflexivity.
    + destruct (serialise _) as [body | e2] eqn:Hs; [ discriminate | ].
      intros H. injection H as <-. left. exact (serialise_raises _ _ Hs).
  - intros H. injection H as <-.
    destruct (extract_raises r e1 Hex) as [-> | [-> | ->]]; auto.
Qed.

(** Metadata that lists typed attributions. *)
Lemma holds_web_object (o : pyobj) (c : Citation) :
  holds_web o c -> obj_truthy o = true.
Proof.
  intros [Hu _]. destruct o; simpl in Hu; try discriminate; reflexivity.
Qed.

Lemma getattr_default_ok (o v : pyobj) (name : pystr) :
  getattr o name = Ok v -> getattr_default o name = v.
Proof. intros H. unfold getattr_default. rewrite H. reflexivity. Qed.

Lemma sources_of_listed (attrs : list pyobj) (ws : list (option Citation)) :
  Forall2 holds_attribution attrs ws ->
  sources_of attrs = Ok (map citation_obj (filter exposes_citation ws)).
Proof.
  induction 1 as [ | attr w attrs ws Hw _ IH ]; [ reflexivity | ].
  simpl sources_of. unfold has_citation, source_entry.
  destruct w as [c | ]; simpl in Hw.
  - destruct Hw as (o & Ho & Hu & Ht).
    rewrite (getattr_default_ok attr o (py "web") Ho).
    rewrite (holds_web_object o c (conj Hu Ht)). simpl negb. cbv iota.
    rewrite Ho, Hu, Ht.
    destruct c as [[[ | u us] | ] [[ | t ts] | ]]; simpl; rewrite IH; reflexivity.
  - rewrite Hw. simpl. exact IH.
Qed.

Lemma serialise_cited (ws : list (option Citation)) :
  serialise_each (map citation_obj (filter exposes_citation ws)) =
  Ok (cited_sources ws).
Proof.
  unfold cited_sources.
  induction ws as [ | w ws IH ]; [ reflexivity | ].
  simpl filter.
  destruct w as [[[[ | u us] | ] [[ | t ts] | ]] | ]; simpl exposes_citation;
    cbv iota; try exact IH.
  simpl map. simpl serialise_each. rewrite IH. reflexivity.
Qed.

Lemma extract_listed (r : GenerateContentResponse) (cand : Candidate)
    (t : pystr) (ws : list (option Citation)) :
  answers r cand t ->
  lists_attributions (grounding_metadata cand) ws ->
  extract r = Ok (Some t, map citation_obj (filter exposes_citation ws)).
Proof.
  intros (rest & ct & p & ps & Hc & Hct & Hp & Ht & _) Hl.
  unfold extract. rewrite Hc, Hct, Hp. simpl first_item. cbv iota zeta.
  rewrite Ht.
  destruct Hl as [[Hgm ->] | [[Hga ->] | (attrs & Hga & Hall)]].
  - rewrite Hgm. reflexivity.
  - rewrite Hga. simpl obj_truthy. rewrite andb_false_r. reflexivity.
  - rewrite (getattr_default_ok _ _ _ Hga), Hga.
    assert (Hobj : obj_truthy (grounding_metadata cand) = true).
    { destruct (grounding_metadata cand); simpl in Hga; try discriminate;
        reflexivity. }
    rewrite Hobj. simpl andb.
    destruct attrs as [ | attr attrs ].
    + inversion Hall; subst. reflexivity.
    + simpl obj_truthy. cbv iota. simpl obj_iter. cbv iota.
      rewrite (sources_of_listed (attr :: attrs) ws Hall). reflexivity.
Qed.

Lemma reply_listed (r : GenerateContentResponse) (cand : Candidate)
    (t : pystr) (ws : list (option Citation)) :
  answers r cand t ->
  lists_attributions (grounding_metadata cand) ws ->
  reply r = Ok (jsonify (success_body t (cited_sources ws))).
Proof.
  intros Hans Hl. unfold reply. rewrite (extract_listed r cand t ws Hans Hl).
  destruct Hans as (rest & ct & p & ps & _ & _ & _ & _ & Hne).
  destruct t as [ | x t ]; [ congruence | ].
  simpl opt_str_truthy. simpl negb. cbv iota. simpl opt_str_obj.
  rewrite serialise_body, serialise_cited. reflexivity.
Qed.

(* --------------------------------------------------------------------- *)
(** *** Errors of the model service *)

(** C3.  A run in which the handler does not answer an API error with
    the 500 response: the client raises an API error whose text ends
    in a lone surrogate and the terminal writes UTF-8, or the text has
    an accented letter and the terminal writes ASCII.  The call is
    made, the [print] of the first [except] clause raises, and the
    handler ends with that exception and no response. *)
Theorem chat_api_error_print_fails :
  run (chat Samples.utf8
         (Some (Samples.failing (APIError MoreSamples.surrogate_text)))
         Samples.bus_data 10 Samples.request_bare) =
    (Raise UnicodeEncodeError,
     [request_for Samples.bus_data 10
        [PyDict [ (py "role", PyStr (py "user"));
                  (py "parts", PyList [PyDict [(py "text", PyStr [])]]) ]]]) /\
  outcome (chat Samples.ascii_only
             (Some (Samples.failing (APIError MoreSamples.accented_text)))
             Samples.bus_data 10 Samples.request_bare) =
    Raise UnicodeEncodeError.
Proof. split; reflexivity. Qed.

(** X15.  When the model client raises an API error whose text the
    terminal can write, the handler answers with status 500 and an
    error message made of the fixed prefix, the first 50 characters at
    most of the text of the error, and the closing marker.  The
    excerpt is an initial part of the error text, and the whole text
    when that has 50 characters or fewer, as the text of a rate-limit
    error has. *)
Theorem chat_api_error (out : Terminal) (c : Client) (TD : pystr) (hour : Z)
    (request : Request) (q : api_request) (str_e : pystr) :
  api_calls (chat out (Some c) TD hour request) = [q] ->
  generate_content c q = Raise (APIError str_e) ->
  can_write out str_e = true ->
  outcome (chat out (Some c) TD hour request) =
    Ok {| status_code := 500;
          json :=
            PyDict
              [ (py "error",
                 PyStr (py "The Gemini AI service is currently unavailable. (API Error: "
                        ++ slice_to 50 str_e ++ py "...)")) ] |} /\
  (List.length (slice_to 50 str_e) <= 50)%nat /\
  (exists rest, str_e = slice_to 50 str_e ++ rest) /\
  ((List.length str_e <= 50)%nat -> slice_to 50 str_e = str_e) /\
  (str_e = py "rate limited: too many requests" ->
   slice_to 50 str_e = py "rate limited: too many requests").
Proof.
  intros Hq He Hw.
  split; [ | split; [ | split; [ | split ] ] ].
  - rewrite (chat_outcome_of_call out TD hour c request q Hq), He.
    unfold settle, handled. simpl isinstance_Exception. cbv iota.
    simpl str_exn. rewrite Hw. reflexivity.
  - apply firstn_le_length.
  - exists (skipn 50 str_e). unfold slice_to.
    rewrite firstn_skipn. reflexivity.
  - intros Hlen. apply firstn_all2. exact Hlen.
  - intros ->. reflexivity.
Qed.

Lemma chat_api_error_witness :
  outcome (chat Samples.utf8
             (Some (Samples.failing (APIError Samples.rate_limited)))
             Samples.bus_data 10 Samples.request_full) =
  Ok {| status_code := 500;
        json :=
          PyDict
            [ (py "error",
               PyStr (py "The Gemini AI service is currently unavailable. (API Error: "
                      ++ py "rate limited: too many requests"
                      ++ py "...)")) ] |}.
Proof.
  apply (chat_api_error Samples.utf8
           (Samples.failing (APIError Samples.rate_limited))
           Samples.bus_data 10 Samples.request_full
           (request_for Samples.bus_data 10
              [ service_turn (PyStr (py "user")) (PyStr (py "Hello"));
                service_turn (PyStr (py "model")) (PyStr (py "Hi, how can I help?"));
                service_turn (PyStr (py "user")) Samples.question ])
           Samples.rate_limited).
  - reflexivity.
  - reflexivity.
  - reflexivity.
Defined.

(** C4.  When the response of the model service has no candidates, or
    its first candidate has no content, the handler answers with
    status 500 and a body that has an error field and no response
    field. *)
Theorem chat_no_candidates (out : Terminal) (c : Client) (TD : pystr)
    (hour : Z) (request : Request) (q : api_request)
    (r : GenerateContentResponse) :
  api_calls (chat out (Some c) TD hour request) = [q] ->
  generate_content c q = Ok r ->
  no_answer r ->
  exists resp,
    outcome (chat out (Some c) TD hour request) = Ok resp /\
    status_code resp = 500 /\
    py_getitem (json resp) (py "error") = Ok (PyStr generic_error) /\
    py_getitem (json resp) (py "response") = Raise (KeyError (py "response")).
Proof.
  intros Hq Hr Hno.
  exists generic_response. split.
  - rewrite (chat_outcome_of_call out TD hour c request q Hq), Hr.
    rewrite (reply_no_answer r Hno). reflexivity.
  - repeat split; reflexivity.
Qed.

Lemma chat_no_candidates_witness :
  exists resp,
    outcome (chat Samples.utf8
               (Some (Samples.answering Samples.response_empty))
               Samples.bus_data 10 Samples.request_bare) = Ok resp /\
    status_code resp = 500 /\
    py_getitem (json resp) (py "error") = Ok (PyStr generic_error) /\
    py_getitem (json resp) (py "response") = Raise (KeyError (py "response")).
Proof.
  apply (chat_no_candidates Samples.utf8
           (Samples.answering Samples.response_empty)
           Samples.bus_data 10 Samples.request_bare
           (request_for Samples.bus_data 10
              [service_turn (PyStr (py "user")) (PyStr [])])
           Samples.response_empty).
  - reflexivity.
  - reflexivity.
  - right; left. reflexivity.
Defined.


(** X16.  When the response carries an answer text and its grounding
    metadata is missing, has no list of attributions, or lists
    attributions of the type of the client library, the handler
    answers with status 200, that text, and as sources exactly the
    attributions that expose a web citation with a non-empty URI and a
    non-empty title, in the order of the response, each as a pair of
    URI and title.  An attribution whose web citation has no title is
    left out, and without metadata or attributions the sources are
    empty. *)
Theorem chat_sources (out : Terminal) (c : Client) (TD : pystr) (hour : Z)
    (request : Request) (q : api_request) (r : GenerateContentResponse)
    (cand : Candidate) (t : pystr) (ws : list (option Citation)) :
  api_calls (chat out (Some c) TD hour request) = [q] ->
  generate_content c q = Ok r ->
  answers r cand t ->
  lists_attributions (grounding_metadata cand) ws ->
  outcome (chat out (Some c) TD hour request) =
    Ok {| status_code := 200;
          json := PyDict [ (py "response", PyStr t);
                           (py "sources",
                            PyList (map citation
                                      (filter exposes_citation ws))) ] |} /\
  (forall w, In w (filter exposes_citation ws) ->
     exists u v,
       w = Some {| cite_uri := Some u; cite_title := Some v |} /\
       u <> [] /\ v <> [] /\
       citation w = PyDict [ (py "uri", PyStr u); (py "title", PyStr v) ]) /\
  (forall pre w post,
     ws = pre ++ w :: post -> lacks_title w ->
     filter exposes_citation ws =
       filter exposes_citation pre ++ filter exposes_citation post) /\
  (grounding_metadata cand = ONone -> ws = []) /\
  (getattr_default (grounding_metadata cand) (py "grounding_attributions")
     = ONone -> ws = []).
Proof.
  intros Hq Hr Hans Hl.
  split; [ | split; [ | split; [ | split ] ] ].
  - rewrite (chat_outcome_of_call out TD hour c request q Hq), Hr.
    rewrite (reply_listed r cand t ws Hans Hl). reflexivity.
  - intros w Hin. apply filter_In in Hin. destruct Hin as [_ Hx].
    destruct w as [[[[ | u us] | ] [[ | v vs] | ]] | ]; try discriminate Hx.
    exists (u :: us), (v :: vs). repeat split; discriminate.
  - intros pre w post Heq (cw & -> & Hlack). rewrite Heq, filter_app. simpl.
    destruct cw as [cu ct]. simpl in Hlack.
    destruct Hlack as [-> | ->]; destruct cu as [[ | u us] | ]; reflexivity.
  - intros Hgm.
    destruct Hl as [[_ ->] | [[_ ->] | (attrs & Hga & _)]]; try reflexivity.
    rewrite Hgm in Hga. discriminate Hga.
  - intros Hnone.
    destruct Hl as [[_ ->] | [[_ ->] | (attrs & Hga & _)]]; try reflexivity.
    rewrite (getattr_default_ok _ _ _ Hga) in Hnone. discriminate Hnone.
Qed.

Lemma chat_sources_witness :
  outcome (chat Samples.utf8
             (Some (Samples.answering Samples.response_grounded))
             Samples.bus_data 10 Samples.request_full) =
  Ok {| status_code := 200;
        json :=
          PyDict
            [ (py "response", PyStr Samples.answer_text);
              (py "sources",
               PyList
                 [ PyDict [ (py "uri", PyStr (py "https://qiscet.edu.in/transport"));
                            (py "title", PyStr (py "Transport")) ];
                   PyDict [ (py "uri", PyStr (py "https://example.org/routes"));
                            (py "title", PyStr (py "Routes")) ] ]) ] |}.
Proof.
  apply (chat_sources Samples.utf8
           (Samples.answering Samples.response_grounded)
           Samples.bus_data 10 Samples.request_full
           (request_for Samples.bus_data 10
              [ service_turn (PyStr (py "user")) (PyStr (py "Hello"));
                service_turn (PyStr (py "model")) (PyStr (py "Hi, how can I help?"));
                service_turn (PyStr (py "user")) Samples.question ])
           Samples.response_grounded Samples.candidate_grounded
           Samples.answer_text
           [ Some {| cite_uri := Some (py "https://qiscet.edu.in/transport");
                     cite_title := Some (py "Transport") |};
             Some {| cite_uri := Some (py "https://example.org/buses");
                     cite_title := None |};
             Some {| cite_uri := Some (py "https://example.org/routes");
                     cite_title := Some (py "Routes") |} ]).
  - reflexivity.
  - reflexivity.
  - exists [], Samples.answer_content, {| text := Some Samples.answer_text |}, [].
    repeat split; try reflexivity. discriminate.
  - right; right. eexists. split; [ reflexivity | ].
    repeat constructor; eexists; repeat split; reflexivity.
Defined.

(* --------------------------------------------------------------------- *)
(** *** The handler boundary *)

Lemma handled_generic (out : Terminal) (e : exn) :
  isinstance_APIError e = false ->
  isinstance_Exception e = true ->
  can_write out (str_exn e) = true ->
  handled out e = Ok generic_response.
Proof.
  intros Hapi Hexc Hw. unfold handled. rewrite Hexc, Hw.
  rewrite (error_response_generic e Hapi). reflexivity.
Qed.

(** Two runs in which an exception leaves the handler.  The client
    raises [KeyboardInterrupt], which derives from [BaseException]
    only: no [except] clause takes it.  The client raises a connection
    error whose text has an accented letter and the terminal writes
    ASCII: the second clause takes it and its [print] raises. *)
Lemma chat_catches_failures_counterexample :
  outcome (chat Samples.utf8
             (Some (Samples.failing (BaseOnly (py "KeyboardInterrupt") [])))
             Samples.bus_data 10 Samples.request_bare) =
    Raise (BaseOnly (py "KeyboardInterrupt") []) /\
  outcome (chat Samples.ascii_only
             (Some (Samples.failing
                      (OtherException (py "ConnectError")
                         MoreSamples.accented_text)))
             Samples.bus_data 10 Samples.request_bare) =
    Raise UnicodeEncodeError.
Proof. split; reflexivity. Qed.

(** C6.  Whatever the [try] block raises that derives from
    [Exception], is not an API error of the model client, and has a
    text the terminal can write, is answered with status 500 and the
    message An unexpected server error occurred. Please check the
    terminal for details.  So is a history turn without a role or
    without a text, and so is an answer whose extracted text is empty.
    An exception that derives from [BaseException] only leaves the
    handler as it is. *)
Theorem chat_catches_failures (out : Terminal) (c : Client) (TD : pystr)
    (hour : Z) (request : Request) :
  (forall sent sent' e,
     chat_try c TD hour request sent = (Raise e, sent') ->
     isinstance_APIError e = false ->
     isinstance_Exception e = true ->
     can_write out (str_exn e) = true ->
     chat out (Some c) TD hour request sent =
       (Ok {| status_code := 500;
              json :=
                PyDict
                  [ (py "error",
                     PyStr (py "An unexpected server error occurred. Please check the terminal for details.")) ] |},
        sent')) /\
  (forall data pre fields post,
     get_json request = Ok data ->
     py_get data (py "history") (PyList []) =
       Ok (PyList (pre ++ PyDict fields :: post)) ->
     Forall has_role_and_text pre ->
     dict_lookup fields (py "role") = None \/
     dict_lookup fields (py "text") = None ->
     run (chat out (Some c) TD hour request) =
       (Ok {| status_code := 500;
              json :=
                PyDict
                  [ (py "error",
                     PyStr (py "An unexpected server error occurred. Please check the terminal for details.")) ] |},
        [])) /\
  (forall q r response_text sources,
     api_calls (chat out (Some c) TD hour request) = [q] ->
     generate_content c q = Ok r ->
     extract r = Ok (response_text, sources) ->
     response_text = None \/ response_text = Some [] ->
     outcome (chat out (Some c) TD hour request) =
       Ok {| status_code := 500;
             json :=
               PyDict
                 [ (py "error",
                    PyStr (py "An unexpected server error occurred. Please check the terminal for details.")) ] |}) /\
  (forall sent sent' class_name str_e,
     chat_try c TD hour request sent = (Raise (BaseOnly class_name str_e), sent') ->
     chat out (Some c) TD hour request sent =
       (Raise (BaseOnly class_name str_e), sent')).
Proof.
  split; [ | split; [ | split ] ].
  - intros sent sent' e Hraise Hapi Hexc Hw.
    rewrite chat_some, Hraise. simpl fst. simpl snd. unfold settle.
    rewrite (handled_generic out e Hapi Hexc Hw). reflexivity.
  - intros data pre fields post Hd Hh Hpre Hlack.
    assert (Hk : exists k,
      translate_history (pre ++ PyDict fields :: post) [] = Raise (KeyError k) /\
      (k = py "role" \/ k = py "text")).
    { destruct (dict_lookup fields (py "role")) as [role | ] eqn:Hrole.
      - destruct Hlack as [Hlack | Hlack]; [ discriminate | ].
        exists (py "text"). split; [ | right; reflexivity ].
        apply translate_history_raises; [ exact Hpre | ].
        right. unfold py_getitem. rewrite Hrole, Hlack.
        split; [ exists role | ]; reflexivity.
      - exists (py "role"). split; [ | left; reflexivity ].
        apply translate_history_raises; [ exact Hpre | ].
        left. unfold py_getitem. rewrite Hrole. reflexivity. }
    destruct Hk as (k & Hk & Hkey).
    rewrite chat_run. unfold prepare. rewrite Hd.
    destruct data; try discriminate Hh.
    simpl py_get at 1.
    destruct (dict_lookup items (py "message")); cbv iota;
      rewrite Hh; simpl py_iter; cbv iota; rewrite Hk;
      destruct Hkey as [-> | ->]; reflexivity.
  - intros q r response_text sources Hq Hr Hex Hempty.
    rewrite (chat_outcome_of_call out TD hour c request q Hq), Hr.
    unfold reply. rewrite Hex.
    destruct Hempty as [-> | ->]; reflexivity.
  - intros sent sent' class_name str_e Hraise.
    rewrite chat_some, Hraise. reflexivity.
Qed.

Lemma chat_catches_failures_witness :
  run (chat Samples.utf8
         (Some (Samples.answering Samples.response_grounded))
         Samples.bus_data 10 Samples.request_broken) =
  (Ok {| status_code := 500;
         json :=
           PyDict
             [ (py "error",
                PyStr (py "An unexpected server error occurred. Please check the terminal for details.")) ] |},
   []).
Proof.
  destruct (chat_catches_failures Samples.utf8
              (Samples.answering Samples.response_grounded)
              Samples.bus_data 10 Samples.request_broken)
    as (_ & Hturn & _ & _).
  apply (Hturn Samples.body_broken [Samples.turn (py "user") (py "Hello")]
           [(py "role", PyStr (py "model"))] []).
  - reflexivity.
  - reflexivity.
  - constructor; [ | constructor ].
    exists (service_turn (PyStr (py "user")) (PyStr (py "Hello"))).
    exists (PyStr (py "user")), (PyStr (py "Hello")).
    repeat split; reflexivity.
  - right. reflexivity.
Defined.

(* --------------------------------------------------------------------- *)
(** *** The client handle *)

Lemma module_init_client (env : Environment) (g : Globals) :
  module_init env = Ok g -> exists c, client g = Some c.
Proof.
  unfold module_init.
  destruct (getenv env (py "BOT_API_KEY")) as [[ | k key] | ];
    try discriminate.
  destruct (genai_Client env (k :: key)) as [c | e]; try discriminate.
  destruct (load_transport_data env (bus_data_path env)) as [data | e];
    try discriminate.
  intros H. injection H as <-. exists c. reflexivity.
Qed.

(** C7.  With the client handle at [None] every chat call answers at
    once with status 500 and the generic message, and sends nothing to
    the model service.  At start-up a missing credential ends the
    module with an exception, and so does a failing client
    constructor; whenever the module finishes loading, the handle
    holds a client and the handler goes through its [try] block. *)
Theorem chat_without_client (out : Terminal) (TD : pystr) (hour : Z)
    (request : Request) :
  (forall sent,
     chat out None TD hour request sent =
       (Ok {| status_code := 500;
              json := PyDict [ (py "error", PyStr generic_error) ] |},
        sent)) /\
  api_calls (chat out None TD hour request) = [] /\
  (forall env,
     getenv env (py "BOT_API_KEY") = None \/
     getenv env (py "BOT_API_KEY") = Some [] ->
     exists msg, module_init env = Raise (ValueError msg)) /\
  (forall env key e,
     getenv env (py "BOT_API_KEY") = Some key -> key <> [] ->
     genai_Client env key = Raise e ->
     module_init env = Raise e) /\
  (forall env g,
     module_init env = Ok g ->
     exists c,
       client g = Some c /\
       chat out (client g) (TRANSPORT_DATA g) hour request =
         try_except (chat_try c (TRANSPORT_DATA g) hour request)
           (chat_except out)).
Proof.
  split; [ | split; [ | split; [ | split ] ] ].
  - intros sent. reflexivity.
  - reflexivity.
  - intros env [H | H]; unfold module_init; rewrite H; eexists; reflexivity.
  - intros env key e Hkey Hne Hc. unfold module_init. rewrite Hkey.
    destruct key as [ | k key ]; [ congruence | ].
    rewrite Hc. reflexivity.
  - intros env g Hinit.
    destruct (module_init_client env g Hinit) as [c Hc].
    exists c. split; [ exact Hc | ]. rewrite Hc. reflexivity.
Qed.

Lemma chat_without_client_witness :
  exists c,
    client {| client := Some (Samples.answering Samples.response_grounded);
              TRANSPORT_DATA := Samples.bus_data |} = Some c /\
    chat Samples.utf8 (Some (Samples.answering Samples.response_grounded))
      Samples.bus_data 10 Samples.request_full =
    try_except (chat_try c Samples.bus_data 10 Samples.request_full)
      (chat_except Samples.utf8).
Proof.
  destruct (chat_without_client Samples.utf8 Samples.bus_data 10
              Samples.request_full)
    as (_ & _ & _ & _ & Hinit).
  apply (Hinit Samples.env_ready
           {| client := Some (Samples.answering Samples.response_grounded);
              TRANSPORT_DATA := Samples.bus_data |}).
  reflexivity.
Defined.

(* --------------------------------------------------------------------- *)
(** *** Runs of the handler on irregular bodies *)

(** A body that cannot be decoded. *)
Example chat_body_undecodable :
  run (chat Samples.utf8 (Some (Samples.answering Samples.response_grounded))
         Samples.bus_data 10
         {| get_json := Raise (HTTPException 400) |})
  = (Ok generic_response, []).
Proof. reflexivity. Qed.

(** The body [null]: [None] has no [get]. *)
Example chat_body_null :
  run (chat Samples.utf8 (Some (Samples.answering Samples.response_grounded))
         Samples.bus_data 10 {| get_json := Ok PyNone |})
  = (Ok generic_response, []).
Proof. reflexivity. Qed.

(** A history that is a number cannot be iterated. *)
Example chat_history_number :
  run (chat Samples.utf8 (Some (Samples.answering Samples.response_grounded))
         Samples.bus_data 10
         {| get_json := Ok (PyDict [(py "history", PyInt 5)]) |})
  = (Ok generic_response, []).
Proof. reflexivity. Qed.

(** A history that is a string is iterated character by character,
    and a character cannot be indexed by a key. *)
Example chat_history_string :
  run (chat Samples.utf8 (Some (Samples.answering Samples.response_grounded))
         Samples.bus_data 10
         {| get_json := Ok (PyDict [(py "history", PyStr (py "hi"))]) |})
  = (Ok generic_response, []).
Proof. reflexivity. Qed.

(** An API error with a long text is cut after 50 characters. *)
Example chat_api_error_long :
  outcome
    (chat Samples.utf8
       (Some (Samples.failing
                (APIError (py "429 RESOURCE_EXHAUSTED. Quota exceeded for the current billing period."))))
       Samples.bus_data 10 Samples.request_bare)
  = Ok {| status_code := 500;
          json :=
            PyDict
              [ (py "error",
                 PyStr (py "The Gemini AI service is currently unavailable. (API Error: 429 RESOURCE_EXHAUSTED. Quota exceeded for the cur...)")) ] |}.
Proof. reflexivity. Qed.

(** A first candidate whose content has no parts: indexing fails. *)
Example chat_no_parts :
  outcome
    (chat Samples.utf8
       (Some (Samples.answering
                {| candidates :=
                     Some [ {| content := Some {| parts := None |};
                               grounding_metadata := ONone |} ] |}))
       Samples.bus_data 10 Samples.request_bare)
  = Ok generic_response.
Proof. reflexivity. Qed.

(** A source whose title is an object cannot be serialised. *)
Example chat_title_object :
  outcome
    (chat Samples.utf8
       (Some (Samples.answering
                {| candidates :=
                     Some [ {| content := Some Samples.answer_content;
                               grounding_metadata :=
                                 OObject
                                   [ (py "grounding_attributions",
                                      OList
                                        [ OObject
                                            [ (py "web",
                                               OObject
                                                 [ (py "uri", OStr (py "https://example.org"));
                                                   (py "title", OObject []) ]) ] ]) ] |} ] |}))
       Samples.bus_data 10 Samples.request_bare)
  = Ok generic_response.
Proof. reflexivity. Qed.

(* ===================================================================== *)
(** ** Further properties of the chat handler *)
(* ===================================================================== *)

Lemma handled_ok_inv (out : Terminal) (e : exn) (resp : Response) :
  handled out e = Ok resp ->
  resp = error_response e /\ isinstance_Exception e = true.
Proof.
  unfold handled.
  destruct (isinstance_Exception e); [ | discriminate ].
  destruct (can_write out (str_exn e)); [ | discriminate ].
  intros H. injection H as <-. split; reflexivity.
Qed.

Lemma handled_raise_inv (out : Terminal) (e e' : exn) :
  handled out e = Raise e' ->
  (e' = UnicodeEncodeError /\ can_write out (str_exn e) = false) \/
  (exists class_name str_e, e' = BaseOnly class_name str_e /\ e = e').
Proof.
  unfold handled.
  destruct (isinstance_Exception e) eqn:Hexc.
  - destruct (can_write out (str_exn e)); [ discriminate | ].
    intros H. injection H as <-. left. split; reflexivity.
  - intros H. injection H as <-. right.
    destruct e; try discriminate Hexc. eexists. eexists. split; reflexivity.
Qed.

(** X1.  A chat call sends at most one request to the model service.
    It leaves the requests sent before it in place and adds its own
    after them, and its outcome does not depend on what was sent
    before. *)
Theorem chat_frame (out : Terminal) (client : option Client) (TD : pystr)
    (hour : Z) (request : Request) (sent : list api_request) :
  chat out client TD hour request sent =
    (outcome (chat out client TD hour request),
     sent ++ api_calls (chat out client TD hour request)) /\
  (List.length (api_calls (chat out client TD hour request)) <= 1)%nat.
Proof.
  unfold outcome, api_calls, run.
  destruct client as [c | ].
  - rewrite !chat_some, !chat_try_unfold.
    destruct (prepare TD hour request) as [q | e]; simpl.
    + split; [ reflexivity | lia ].
    + rewrite app_nil_r. split; [ reflexivity | lia ].
  - rewrite !chat_none. simpl. rewrite app_nil_r. split; [ reflexivity | lia ].
Qed.

(** X2.  The handler reaches the model service exactly when the body
    decodes to a dictionary, its history (the empty list when absent)
    can be iterated, and every element visited has a role and a text.
    In every other case nothing is sent. *)
Theorem chat_call_iff (out : Terminal) (c : Client) (TD : pystr) (hour : Z)
    (request : Request) :
  ((exists q, api_calls (chat out (Some c) TD hour request) = [q]) <->
   (exists items messages,
      get_json request = Ok (PyDict items) /\
      py_iter (history_value items) = Ok messages /\
      Forall has_role_and_text messages)) /\
  ((forall q, api_calls (chat out (Some c) TD hour request) <> [q]) ->
   api_calls (chat out (Some c) TD hour request) = []).
Proof.
  split; [ split | ].
  - intros [q Hq]. apply chat_calls_inv in Hq.
    destruct (prepare_ok_inv TD hour request q Hq)
      as (items & messages & turns & Hd & Hi & Hturns & _).
    exists items, messages. repeat split; auto.
    exact (Forall2_turn_for_left messages turns Hturns).
  - intros (items & messages & Hd & Hi & Hall).
    destruct (prepare_ok_intro TD hour request items messages Hd Hi Hall)
      as [q Hq].
    exists q. apply chat_calls_of_prepare. exact Hq.
  - intros Hnone.
    destruct (api_calls_cases out c TD hour request)
      as [(e & _ & Hrun) | (q & _ & Hq)].
    + unfold api_calls. rewrite Hrun. reflexivity.
    + destruct (Hnone q Hq).
Qed.

(** X3.  Whatever the body, a request that is sent names the model
    gemini-2.5-flash, enables the search tool, carries the system
    prompt built from the transport data and the status of the hour,
    and has as contents a list of turns, each a dictionary with a role
    and a list of one part with a text, that ends with the turn whose
    role is user and whose text is the message of the body (the empty
    string when absent), passed on as it is. *)
Theorem chat_request_shape (out : Terminal) (c : Client) (TD : pystr)
    (hour : Z) (request : Request) (q : api_request) :
  In q (api_calls (chat out (Some c) TD hour request)) ->
  model q = py "gemini-2.5-flash" /\
  config q =
    PyDict [ (py "system_instruction",
              PyStr (system_prompt TD (snd (get_campus_status hour))));
             (py "tools", PyList [PyDict [(py "google_search", PyDict [])]]) ] /\
  exists items turns,
    get_json request = Ok (PyDict items) /\
    Forall
      (fun turn =>
         exists role text,
           turn = PyDict [ (py "role", role);
                           (py "parts",
                            PyList [PyDict [(py "text", text)]]) ])
      turns /\
    contents q =
      PyList (turns
              ++ [PyDict [ (py "role", PyStr (py "user"));
                           (py "parts",
                            PyList [PyDict [(py "text", message_value items)]]) ]]).
Proof.
  intros Hin.
  destruct (api_calls_cases out c TD hour request)
    as [(e & _ & Hrun) | (q' & Hp & Hq)].
  - unfold api_calls in Hin. rewrite Hrun in Hin. destruct Hin.
  - rewrite Hq in Hin. destruct Hin as [<- | []].
    destruct (prepare_ok_inv TD hour request q' Hp)
      as (items & messages & turns & Hd & _ & Hturns & ->).
    split; [ reflexivity | split; [ reflexivity | ] ].
    exists items, turns. repeat split; auto.
    exact (Forall2_turn_for_right messages turns Hturns).
Qed.

Lemma chat_request_shape_witness :
  let q := request_for Samples.bus_data 10
             [service_turn (PyStr (py "user")) (PyStr [])] in
  model q = py "gemini-2.5-flash" /\
  config q =
    PyDict [ (py "system_instruction",
              PyStr (system_prompt Samples.bus_data
                       (snd (get_campus_status 10))));
             (py "tools", PyList [PyDict [(py "google_search", PyDict [])]]) ] /\
  exists items turns,
    get_json Samples.request_bare = Ok (PyDict items) /\
    Forall
      (fun turn =>
         exists role text,
           turn = PyDict [ (py "role", role);
                           (py "parts",
                            PyList [PyDict [(py "text", text)]]) ])
      turns /\
    contents q =
      PyList (turns
              ++ [PyDict [ (py "role", PyStr (py "user"));
                           (py "parts",
                            PyList [PyDict [(py "text", message_value items)]]) ]]).
Proof.
  apply (chat_request_shape Samples.utf8
           (Samples.answering Samples.response_grounded)
           Samples.bus_data 10 Samples.request_bare).
  left. reflexivity.
Defined.

(* --------------------------------------------------------------------- *)
(** *** What the handler answers *)

Lemma error_response_shape (e : exn) : error_shape (error_response e).
Proof.
  split.
  - destruct e; reflexivity.
  - destruct e; eexists; reflexivity.
Qed.

Lemma reply_ok_shape (r : GenerateContentResponse) (resp : Response) :
  reply r = Ok resp -> success_shape resp.
Proof.
  intros H. destruct (reply_ok_inv r resp H) as (cand & t & srcs & Hans & Hs & ->).
  split; [ reflexivity | ].
  exists t, srcs.
  destruct Hans as (rest & ct & p & ps & _ & _ & _ & _ & Hne).
  repeat split; assumption.
Qed.

(** The outcomes of the handler, by the path taken. *)
Lemma outcome_cases (out : Terminal) (c : Client) (TD : pystr) (hour : Z)
    (request : Request) :
  (exists e, outcome (chat out (Some c) TD hour request) = handled out e /\
             (prepare TD hour request = Raise e \/
              exists q, api_calls (chat out (Some c) TD hour request) = [q] /\
                        (generate_content c q = Raise e \/
                         exists r, generate_content c q = Ok r /\
                                   reply r = Raise e))) \/
  (exists q r resp,
     api_calls (chat out (Some c) TD hour request) = [q] /\
     generate_content c q = Ok r /\ reply r = Ok resp /\
     outcome (chat out (Some c) TD hour request) = Ok resp).
Proof.
  destruct (api_calls_cases out c TD hour request)
    as [(e & Hp & Hrun) | (q & _ & Hq)].
  - left. exists e. split; [ | left; exact Hp ].
    unfold outcome. rewrite Hrun. reflexivity.
  - rewrite (chat_outcome_of_call out TD hour c request q Hq).
    destruct (generate_content c q) as [r | e] eqn:Hg.
    + destruct (reply r) as [resp | e] eqn:Hr.
      * right. exists q, r, resp. repeat split; assumption || reflexivity.
      * left. exists e. split; [ reflexivity | ].
        right. exists q. split; [ exact Hq | ].
        right. exists r. split; [ exact Hg | exact Hr ].
    + left. exists e. split; [ reflexivity | ].
      right. exists q. split; [ exact Hq | left; exact Hg ].
Qed.

(** X4.  A chat call that returns answers in one of two shapes: status
    200 with a non-empty response text and a list of sources, each a
    dictionary of a URI and a title that are neither [None] nor empty;
    or status 500 with an error message and nothing else.  A call that
    does not return ends with the encoding error of [print], raised in
    an [except] clause, or with an exception that derives from
    [BaseException] only. *)
Theorem chat_response_shape (out : Terminal) (client : option Client)
    (TD : pystr) (hour : Z) (request : Request) :
  (forall resp,
     outcome (chat out client TD hour request) = Ok resp ->
     success_shape resp \/ error_shape resp) /\
  (forall e,
     outcome (chat out client TD hour request) = Raise e ->
     e = UnicodeEncodeError \/
     exists class_name str_e, e = BaseOnly class_name str_e).
Proof.
  destruct client as [c | ].
  - destruct (outcome_cases out c TD hour request)
      as [(e0 & Hout & _) | (q & r & resp0 & _ & _ & Hr & Hout)];
      rewrite Hout; split.
    + intros resp H. right.
      destruct (handled_ok_inv out e0 resp H) as [-> _].
      apply error_response_shape.
    + intros e H.
      destruct (handled_raise_inv out e0 e H)
        as [[-> _] | (n & t & -> & _)]; [ left; reflexivity | ].
      right. exists n, t. reflexivity.
    + intros resp H. injection H as <-. left. exact (reply_ok_shape r resp0 Hr).
    + intros e H. discriminate H.
  - split.
    + intros resp H. injection H as <-. right.
      split; [ reflexivity | eexists; reflexivity ].
    + intros e H. discriminate H.
Qed.

Lemma chat_response_shape_witness :
  success_shape
    {| status_code := 200;
       json :=
         PyDict
           [ (py "response", PyStr Samples.answer_text);
             (py "sources",
              PyList
                [ PyDict [ (py "uri", PyStr (py "https://qiscet.edu.in/transport"));
                           (py "title", PyStr (py "Transport")) ];
                  PyDict [ (py "uri", PyStr (py "https://example.org/routes"));
                           (py "title", PyStr (py "Routes")) ] ]) ] |} \/
  error_shape
    {| status_code := 200;
       json :=
         PyDict
           [ (py "response", PyStr Samples.answer_text);
             (py "sources",
              PyList
                [ PyDict [ (py "uri", PyStr (py "https://qiscet.edu.in/transport"));
                           (py "title", PyStr (py "Transport")) ];
                  PyDict [ (py "uri", PyStr (py "https://example.org/routes"));
                           (py "title", PyStr (py "Routes")) ] ]) ] |}.
Proof.
  destruct (chat_response_shape Samples.utf8
              (Some (Samples.answering Samples.response_grounded))
              Samples.bus_data 10 Samples.request_full) as [Hok _].
  apply Hok. reflexivity.
Defined.

(** X5.  The handler answers with status 200 only when it reached the
    model service and the response it got carries a non-empty text in
    the first part of its first candidate; and it does answer with
    status 200 then, when the grounding metadata of that candidate is
    missing or lists attributions of the type of the client
    library. *)
Theorem chat_success_conditions (out : Terminal) (c : Client) (TD : pystr)
    (hour : Z) (request : Request) :
  ((exists resp,
      outcome (chat out (Some c) TD hour request) = Ok resp /\
      status_code resp = 200) ->
   exists q r cand t,
     api_calls (chat out (Some c) TD hour request) = [q] /\
     generate_content c q = Ok r /\
     answers r cand t) /\
  (forall q r cand t ws,
     api_calls (chat out (Some c) TD hour request) = [q] ->
     generate_content c q = Ok r ->
     answers r cand t ->
     lists_attributions (grounding_metadata cand) ws ->
     exists resp,
       outcome (chat out (Some c) TD hour request) = Ok resp /\
       status_code resp = 200).
Proof.
  split.
  - intros (resp & Hout & Hst).
    destruct (outcome_cases out c TD hour request)
      as [(e0 & Hout' & _) | (q & r & resp0 & Hq & Hg & Hr & _)].
    + rewrite Hout' in Hout.
      destruct (handled_ok_inv out e0 resp Hout) as [-> _].
      destruct (error_response_shape e0) as [H500 _]. congruence.
    + destruct (reply_ok_inv r resp0 Hr) as (cand & t & srcs & Hans & _ & _).
      exists q, r, cand, t. repeat split; assumption.
  - intros q r cand t ws Hq Hg Hans Hl.
    eexists. split.
    + rewrite (chat_outcome_of_call out TD hour c request q Hq), Hg.
      rewrite (reply_listed r cand t ws Hans Hl). reflexivity.
    + reflexivity.
Qed.

Lemma chat_success_conditions_witness :
  exists q r cand t,
    api_calls (chat Samples.utf8
                 (Some (Samples.answering Samples.response_grounded))
                 Samples.bus_data 10 Samples.request_bare) = [q] /\
    generate_content (Samples.answering Samples.response_grounded) q = Ok r /\
    answers r cand t.
Proof.
  destruct (chat_success_conditions Samples.utf8
              (Samples.answering Samples.response_grounded)
              Samples.bus_data 10 Samples.request_bare) as [Honly _].
  apply Honly. eexists. split; reflexivity.
Defined.

(* --------------------------------------------------------------------- *)
(** *** Error messages *)

Lemma py_getitem_raise_class (v : pyval) (k : pystr) (e : exn) :
  py_getitem v k = Raise e -> isinstance_APIError e = false.
Proof.
  destruct v; simpl; try (intros H; injection H as <-; reflexivity).
  destruct (dict_lookup items k); [ discriminate | ].
  intros H; injection H as <-; reflexivity.
Qed.

Lemma translate_history_raise_class (messages : list pyval) :
  forall acc e,
    translate_history messages acc = Raise e ->
    isinstance_APIError e = false.
Proof.
  induction messages as [ | m rest IH ]; intros acc e H; simpl in H.
  - discriminate.
  - destruct (py_getitem m (py "role")) as [role | e1] eqn:Hr.
    + destruct (py_getitem m (py "text")) as [text | e2] eqn:Ht.
      * exact (IH _ _ H).
      * injection H as <-. exact (py_getitem_raise_class _ _ _ Ht).
    + injection H as <-. exact (py_getitem_raise_class _ _ _ Hr).
Qed.

Lemma prepare_raise_class (TD : pystr) (hour : Z) (request : Request) (e : exn) :
  decodes_without_api_error request ->
  prepare TD hour request = Raise e ->
  isinstance_APIError e = false.
Proof.
  intros Hdec. unfold prepare.
  destruct (get_json request) as [data | e1] eqn:Hd.
  - destruct data as [ | b | z | f | s | xs | items ];
      try (simpl; intros H; injection H as <-; reflexivity).
    rewrite py_get_message, py_get_history.
    destruct (py_iter (history_value items)) as [messages | e1] eqn:Hi.
    + destruct (translate_history messages []) as [r | e1] eqn:Ht;
        [ discriminate | ].
      intros H. injection H as <-.
      exact (translate_history_raise_class messages [] e1 Ht).
    + intros H. injection H as <-.
      destruct (history_value items); simpl in Hi; try discriminate;
        injection Hi as <-; reflexivity.
  - intros H. injection H as <-.
    destruct e1; try reflexivity. destruct (Hdec str_e Hd).
Qed.

Lemma own_error_class (e : exn) :
  own_error e -> isinstance_APIError e = false.
Proof. intros [-> | [-> | [-> | ->]]]; reflexivity. Qed.

Lemma error_message_of (e : exn) (msg : pystr) :
  py_getitem (json (error_response e)) (py "error") = Ok (PyStr msg) ->
  (isinstance_APIError e = false /\ msg = generic_error) \/
  (exists s, e = APIError s /\
             msg = api_error_prefix ++ slice_to 50 s ++ api_error_suffix).
Proof.
  destruct e; simpl; intros H; injection H as <-;
    try (left; split; reflexivity).
  right. eexists. split; reflexivity.
Qed.

(** X6.  For a body whose decoding raises no API error, the error
    message of a response is the generic one unless the handler
    reached the model service and the client raised an API error; then
    it is the prefix, the first 50 characters of the error text and
    the closing marker.  Either way it has at most 114 characters. *)
Theorem chat_error_message (out : Terminal) (c : Client) (TD : pystr)
    (hour : Z) (request : Request) (resp : Response) (msg : pystr) :
  decodes_without_api_error request ->
  outcome (chat out (Some c) TD hour request) = Ok resp ->
  py_getitem (json resp) (py "error") = Ok (PyStr msg) ->
  (msg = generic_error \/
   exists q s,
     api_calls (chat out (Some c) TD hour request) = [q] /\
     generate_content c q = Raise (APIError s) /\
     msg = api_error_prefix ++ slice_to 50 s ++ api_error_suffix) /\
  (List.length msg <= 114)%nat.
Proof.
  intros Hdec Hout Hmsg.
  assert (Hcases :
    msg = generic_error \/
    exists q s,
      api_calls (chat out (Some c) TD hour request) = [q] /\
      generate_content c q = Raise (APIError s) /\
      msg = api_error_prefix ++ slice_to 50 s ++ api_error_suffix).
  { destruct (outcome_cases out c TD hour request)
      as [(e0 & Hout' & Hwhere) | (q & r & resp0 & _ & _ & Hr & Hout')];
      rewrite Hout' in Hout.
    - destruct (handled_ok_inv out e0 resp Hout) as [-> _].
      destruct (error_message_of e0 msg Hmsg) as [[_ ->] | (s & -> & ->)];
        [ left; reflexivity | ].
      destruct Hwhere as [Hp | (q & Hq & [Hg | (r & _ & Hr)])].
      + pose proof (prepare_raise_class TD hour request _ Hdec Hp) as Hcls.
        discriminate Hcls.
      + right. exists q, s. repeat split; assumption || reflexivity.
      + pose proof (own_error_class _ (reply_raises r _ Hr)) as Hcls.
        discriminate Hcls.
    - injection Hout as <-.
      destruct (reply_ok_inv r resp0 Hr) as (cand & t & srcs & _ & _ & ->).
      discriminate Hmsg. }
  split; [ exact Hcases | ].
  destruct Hcases as [-> | (q & s & _ & _ & ->)].
  - apply Nat.leb_le. reflexivity.
  - rewrite !List.length_app.
    pose proof (firstn_le_length 50 s) as Hle. unfold slice_to.
    change (List.length api_error_prefix) with 60%nat.
    change (List.length api_error_suffix) with 4%nat.
    lia.
Qed.

Lemma chat_error_message_witness :
  let msg := api_error_prefix ++ slice_to 50 Samples.rate_limited
             ++ api_error_suffix in
  (msg = generic_error \/
   exists q s,
     api_calls (chat Samples.utf8
                  (Some (Samples.failing (APIError Samples.rate_limited)))
                  Samples.bus_data 10 Samples.request_bare) = [q] /\
     generate_content (Samples.failing (APIError Samples.rate_limited)) q
       = Raise (APIError s) /\
     msg = api_error_prefix ++ slice_to 50 s ++ api_error_suffix) /\
  (List.length msg <= 114)%nat.
Proof.
  apply (chat_error_message Samples.utf8
           (Samples.failing (APIError Samples.rate_limited))
           Samples.bus_data 10 Samples.request_bare
           (error_response (APIError Samples.rate_limited))).
  - intros s H. discriminate H.
  - reflexivity.
  - reflexivity.
Defined.

(* --------------------------------------------------------------------- *)
(** *** What the handler reads of a response *)

Lemma extract_first_only (r : GenerateContentResponse) :
  extract (first_only r) = extract r.
Proof.
  unfold first_only, extract.
  destruct (candidates r) as [[ | c rest] | ] eqn:Hc;
    try (rewrite Hc; reflexivity).
  simpl. destruct (content c) as [ct | ]; [ | reflexivity ].
  simpl. destruct (parts ct) as [[ | p ps] | ]; reflexivity.
Qed.

(** X7.  The handler reads only the first candidate of a response
    and, of its content, only the first part: two clients whose
    responses agree on these, and that raise the same exceptions, make
    the handler answer alike.  Further candidates and further parts
    are never used. *)
Theorem chat_reads_first_only (out : Terminal) (c1 c2 : Client) (TD : pystr)
    (hour : Z) (request : Request) :
  (forall q,
     generate_content c2 q =
     match generate_content c1 q with
     | Ok r => Ok (first_only r)
     | Raise e => Raise e
     end) ->
  run (chat out (Some c2) TD hour request) =
  run (chat out (Some c1) TD hour request).
Proof.
  intros Hsame. rewrite !chat_run.
  destruct (prepare TD hour request) as [q | e]; [ | reflexivity ].
  rewrite Hsame.
  destruct (generate_content c1 q) as [r | e]; [ | reflexivity ].
  unfold reply. rewrite extract_first_only. reflexivity.
Qed.

Lemma chat_reads_first_only_witness :
  run (chat Samples.utf8
         (Some (Samples.answering (first_only MoreSamples.response_many)))
         Samples.bus_data 10 Samples.request_full) =
  run (chat Samples.utf8
         (Some (Samples.answering MoreSamples.response_many))
         Samples.bus_data 10 Samples.request_full).
Proof.
  apply (chat_reads_first_only Samples.utf8
           (Samples.answering MoreSamples.response_many)
           (Samples.answering (first_only MoreSamples.response_many))).
  intros q. reflexivity.
Defined.

(* --------------------------------------------------------------------- *)
(** *** Bodies with an irregular history *)

Lemma prepare_history_raises (TD : pystr) (hour : Z) (request : Request)
    (items : list (pystr * pyval)) :
  get_json request = Ok (PyDict items) ->
  (match py_iter (history_value items) with
   | Ok messages => translate_history messages [] = Raise TypeError
   | Raise e => e = TypeError
   end) ->
  prepare TD hour request = Raise TypeError.
Proof.
  intros Hd H. unfold prepare.
  rewrite Hd, py_get_message, py_get_history.
  destruct (py_iter (history_value items)) as [messages | e].
  - rewrite H. reflexivity.
  - rewrite H. reflexivity.
Qed.

(** X8.  A history that is present but empty, be it a list, a string
    or a dictionary, counts as no history: the single user turn is
    sent.  A history that is [null], a boolean, a number, a non-empty
    string or a non-empty dictionary stops the handler before the
    call, with status 500 and the generic message; so an explicit
    [null] is not taken for a missing field. *)
Theorem chat_history_edge (out : Terminal) (c : Client) (TD : pystr)
    (hour : Z) (request : Request) (items : list (pystr * pyval)) :
  get_json request = Ok (PyDict items) ->
  (history_value items = PyList [] \/
   history_value items = PyStr [] \/
   history_value items = PyDict [] ->
   api_calls (chat out (Some c) TD hour request) =
     [request_for TD hour
        [PyDict [ (py "role", PyStr (py "user"));
                  (py "parts",
                   PyList [PyDict [(py "text", message_value items)]]) ]]]) /\
  (history_value items = PyNone \/
   (exists b, history_value items = PyBool b) \/
   (exists z, history_value items = PyInt z) \/
   (exists f, history_value items = PyFloat f) \/
   (exists ch s, history_value items = PyStr (ch :: s)) \/
   (exists kv rest, history_value items = PyDict (kv :: rest)) ->
   run (chat out (Some c) TD hour request) =
     (Ok {| status_code := 500;
            json := PyDict [ (py "error", PyStr generic_error) ] |}, [])).
Proof.
  intros Hd. split.
  - intros Hempty. apply chat_calls_of_prepare.
    unfold prepare. rewrite Hd, py_get_message, py_get_history.
    destruct Hempty as [-> | [-> | ->]]; reflexivity.
  - intros Hbad.
    assert (Hp : prepare TD hour request = Raise TypeError).
    { apply (prepare_history_raises TD hour request items Hd).
      destruct Hbad as [-> | [[b ->] | [[z ->] | [[f ->] | [(ch & s & ->)
                       | (kv & rest & ->)]]]]]; reflexivity. }
    rewrite chat_run, Hp. reflexivity.
Qed.

Lemma chat_history_edge_witness :
  run (chat Samples.utf8 (Some (Samples.answering Samples.response_grounded))
         Samples.bus_data 10 MoreSamples.request_null_history) =
  (Ok {| status_code := 500;
         json := PyDict [ (py "error", PyStr generic_error) ] |}, []).
Proof.
  destruct (chat_history_edge Samples.utf8
              (Samples.answering Samples.response_grounded)
              Samples.bus_data 10 MoreSamples.request_null_history
              [ (py "message", Samples.question); (py "history", PyNone) ]
              eq_refl) as [_ Hbad].
  apply Hbad. left. reflexivity.
Defined.

(* ===================================================================== *)
(** ** Start-up *)
(* ===================================================================== *)

(** X9.  The module finishes loading exactly when the credential is
    set and not empty, the client constructor returns a client for it,
    and the data file can be read; the routes then see that client and
    the text of the file. *)
Theorem module_init_iff (env : Environment) (g : Globals) :
  module_init env = Ok g <->
  exists key c data,
    key <> [] /\
    getenv env (py "BOT_API_KEY") = Some key /\
    genai_Client env key = Ok c /\
    open_read env (bus_data_path env) = Ok data /\
    g = {| client := Some c; TRANSPORT_DATA := data |}.
Proof.
  unfold module_init, load_transport_data. split.
  - destruct (getenv env (py "BOT_API_KEY")) as [[ | k key] | ];
      try discriminate.
    destruct (genai_Client env (k :: key)) as [c | e] eqn:Hc;
      try discriminate.
    destruct (open_read env (bus_data_path env)) as [data | e] eqn:Hr.
    + intros H. injection H as <-.
      exists (k :: key), c, data. repeat split; auto. discriminate.
    + destruct e; discriminate.
  - intros (key & c & data & Hne & Hk & Hc & Hr & ->).
    rewrite Hk. destruct key as [ | k key ]; [ congruence | ].
    rewrite Hc, Hr. reflexivity.
Qed.

(** X10.  With the credential set and the client built, a data file
    that is not there ends start-up with a file-not-found error whose
    message names the path, in place of the message of the system; any
    other failure to read the file ends start-up with that failure,
    unchanged. *)
Theorem module_init_file_errors (env : Environment) (key : pystr) (c : Client) :
  getenv env (py "BOT_API_KEY") = Some key ->
  key <> [] ->
  genai_Client env key = Ok c ->
  (forall m,
     open_read env (bus_data_path env) = Raise (FileNotFoundError m) ->
     module_init env =
       Raise (FileNotFoundError
                (py "Transportation data file not found at: "
                 ++ bus_data_path env))) /\
  (forall e,
     open_read env (bus_data_path env) = Raise e ->
     (forall m, e <> FileNotFoundError m) ->
     module_init env = Raise e).
Proof.
  intros Hk Hne Hc.
  destruct key as [ | k key ]; [ congruence | ].
  split.
  - intros m Hr. unfold module_init, load_transport_data.
    rewrite Hk, Hc, Hr. reflexivity.
  - intros e Hr Hnot. unfold module_init, load_transport_data.
    rewrite Hk, Hc, Hr.
    destruct e; try reflexivity. destruct (Hnot msg eq_refl).
Qed.

Lemma module_init_file_errors_witness :
  module_init MoreSamples.env_no_file =
    Raise (FileNotFoundError
             (py "Transportation data file not found at: /srv/bot/data/bus_data.txt")) /\
  module_init MoreSamples.env_unreadable =
    Raise (OtherException (py "PermissionError")
             (py "[Errno 13] Permission denied")).
Proof.
  split.
  - destruct (module_init_file_errors MoreSamples.env_no_file (py "secret")
                (Samples.answering Samples.response_grounded)
                eq_refl ltac:(discriminate) eq_refl) as [Hmissing _].
    apply (Hmissing (py "[Errno 2] No such file or directory")).
    reflexivity.
  - destruct (module_init_file_errors MoreSamples.env_unreadable (py "secret")
                (Samples.answering Samples.response_grounded)
                eq_refl ltac:(discriminate) eq_refl) as [_ Hother].
    apply Hother; [ reflexivity | intros m H; discriminate H ].
Defined.

(* ===================================================================== *)
(** ** From the data file and the clock to the prompt *)
(* ===================================================================== *)

Lemma system_prompt_split :
  exists head middle tail : pystr,
    forall TD st,
      system_prompt TD st = head ++ TD ++ middle ++ st ++ tail.
Proof.
  exists
    (nl
     ++ line (py "You are QIS Bot, the official AI Admissions Counselor for QIS College of Engineering and Technology (QISCET), Ongole.")
     ++ line (py "Your mission is to provide concise, accurate, and helpful information to prospective students.")
     ++ line []
     ++ line (py "CRITICAL INSTRUCTIONS:")
     ++ line (py "1. **Be Concise:** Keep answers brief (2-3 sentences max) and professional.")
     ++ line (py "2. **Use Search Tool:** Use the Google Search tool for current, general information (like admissions, specific courses, fees, and job placements).")
     ++ line (py "3. **Use Embedded Data:** Use the provided TRANSPORTATION DATA and CAMPUS STATUS below to answer specific questions.")
     ++ line (py "4. **Maintain Persona:** Maintain a friendly, supportive tone.")
     ++ line []
     ++ line (py "---")
     ++ line []
     ++ line (py "# " ++ [128218%N] ++ py " QISCET KEY FACTS")
     ++ line (py "- Location: Vengamukkapalem, Ongole, Prakasam District, Andhra Pradesh.")
     ++ line (py "- Affiliation: Jawaharlal Nehru Technological University (JNTUK), Kakinada.")
     ++ line (py "- Programs: B.Tech (CSE, ECE, EEE, Mechanical, Civil, IT, AI & ML, Data Science), M.Tech, MBA, MCA.")
     ++ line []
     ++ line (py "---")
     ++ line []
     ++ line (py "# " ++ [128652%N] ++ py " TRANSPORTATION DATA (Use ONLY for bus/route/driver queries)")
     ++ indent8).
  exists (nl ++ line [] ++ line (py "---") ++ line [] ++ indent8).
  exists (nl ++ line [] ++ indent8).
  intros TD st. unfold system_prompt.
  unfold line at 20 24.
  repeat rewrite <- app_assoc. reflexivity.
Qed.

Lemma sent_request_inv (out : Terminal) (c : Client) (TD : pystr) (hour : Z)
    (request : Request) (q : api_request) :
  In q (api_calls (chat out (Some c) TD hour request)) ->
  exists full_history, q = request_for TD hour full_history.
Proof.
  intros Hin.
  destruct (api_calls_cases out c TD hour request)
    as [(e & _ & Hrun) | (q' & Hp & Hq)].
  - unfold api_calls in Hin. rewrite Hrun in Hin. destruct Hin.
  - rewrite Hq in Hin. destruct Hin as [<- | []].
    destruct (prepare_ok_inv TD hour request q' Hp)
      as (items & messages & turns & _ & _ & _ & ->).
    eexists. reflexivity.
Qed.

Lemma request_for_system_instruction (TD : pystr) (hour : Z)
    (full_history : list pyval) :
  py_getitem (config (request_for TD hour full_history))
    (py "system_instruction") =
  Ok (PyStr (system_prompt TD (snd (get_campus_status hour)))).
Proof. reflexivity. Qed.

Lemma module_init_ok_inv (env : Environment) (g : Globals) :
  module_init env = Ok g ->
  exists c data,
    open_read env (bus_data_path env) = Ok data /\
    g = {| client := Some c; TRANSPORT_DATA := data |}.
Proof.
  unfold module_init, load_transport_data.
  destruct (getenv env (py "BOT_API_KEY")) as [[ | k key] | ];
    try discriminate.
  destruct (genai_Client env (k :: key)) as [c | e]; try discriminate.
  destruct (open_read env (bus_data_path env)) as [data | e].
  - intros H. injection H as <-. exists c, data. split; reflexivity.
  - destruct e; discriminate.
Qed.

(** X11.  There are three fixed texts such that, once the module has
    loaded, the system prompt of every request sent at hour [h] is the
    first text, the contents of the data file, the second text, the
    label of the status block, the indented JSON text of the mapping
    the status route serves at hour [h], and the third text.  The body
    of the chat request has no part in it. *)
Theorem chat_prompt_embeds :
  exists head middle tail : pystr,
    forall out env g hour request q,
      module_init env = Ok g ->
      In q (api_calls (chat out (client g) (TRANSPORT_DATA g) hour request)) ->
      exists data status_data,
        open_read env (bus_data_path env) = Ok data /\
        json (status hour) = dict_of_strs status_data /\
        py_getitem (config q) (py "system_instruction") =
          Ok (PyStr (head ++ data ++ middle ++ status_label
                     ++ status_block status_data ++ tail)).
Proof.
  destruct system_prompt_split as (head & middle & tail & Hsplit).
  exists head, middle, (nl ++ tail).
  intros out env g hour request q Hinit Hin.
  destruct (module_init_ok_inv env g Hinit) as (c & data & Hr & ->).
  simpl client in Hin. simpl TRANSPORT_DATA in Hin.
  destruct (sent_request_inv out c data hour request q Hin) as [fh ->].
  exists data, (fst (get_campus_status hour)).
  split; [ exact Hr | split; [ rewrite status_eq; reflexivity | ] ].
  rewrite request_for_system_instruction.
  rewrite Hsplit, status_text_eq.
  assert (Hblock : Json.dumps_indent2 (fst (get_campus_status hour)) =
                   status_block (fst (get_campus_status hour))).
  { destruct (status_data_cases hour) as [E | [E | E]]; rewrite E;
      apply profile_blocks. }
  rewrite Hblock. repeat rewrite <- app_assoc. reflexivity.
Qed.

Lemma chat_prompt_embeds_witness :
  exists head middle tail : pystr,
  exists data status_data,
    open_read Samples.env_ready (bus_data_path Samples.env_ready) = Ok data /\
    json (status 10) = dict_of_strs status_data /\
    py_getitem
      (config (request_for Samples.bus_data 10
                 [service_turn (PyStr (py "user")) (PyStr [])]))
      (py "system_instruction") =
      Ok (PyStr (head ++ data ++ middle ++ status_label
                 ++ status_block status_data ++ tail)).
Proof.
  destruct chat_prompt_embeds as (head & middle & tail & H).
  exists head, middle, tail.
  apply (H Samples.utf8 Samples.env_ready
           {| client := Some (Samples.answering Samples.response_grounded);
              TRANSPORT_DATA := Samples.bus_data |}
           10 Samples.request_bare).
  - reflexivity.
  - left. reflexivity.
Defined.

(* ===================================================================== *)
(** ** The status route through the day *)
(* ===================================================================== *)

Lemma band_of_cases (h : Z) :
  (band_of h = Peak /\ 9 <= h < 16) \/
  (band_of h = Evening /\ 16 <= h < 20) \/
  (band_of h = OffHours /\ (h < 9 \/ 20 <= h)).
Proof.
  unfold band_of.
  destruct (Z_le_dec 9 h); [ | right; right; split; [ reflexivity | lia ] ].
  destruct (Z_lt_dec h 16); [ left; split; [ reflexivity | lia ] | ].
  destruct (Z_lt_dec h 20).
  - right; left. split; [ reflexivity | lia ].
  - right; right. split; [ reflexivity | lia ].
Qed.

(** The mapping of a band. *)
Lemma status_data_of_band (h : Z) :
  fst (get_campus_status h) =
  match band_of h with
  | Peak => peak_profile
  | Evening => evening_profile
  | OffHours => off_hours_profile
  end.
Proof.
  destruct (band_of_cases h) as [[-> H] | [[-> H] | [-> H]]].
  - apply status_data_peak. exact H.
  - apply status_data_evening. exact H.
  - apply status_data_off_hours. exact H.
Qed.

Lemma get_campus_status_eta (h : Z) :
  get_campus_status h =
  (fst (get_campus_status h),
   status_label ++ Json.dumps_indent2 (fst (get_campus_status h)) ++ nl).
Proof.
  rewrite <- status_text_eq. destruct (get_campus_status h). reflexivity.
Qed.

Lemma profile_dicts_distinct :
  dict_of_strs peak_profile <> dict_of_strs evening_profile /\
  dict_of_strs peak_profile <> dict_of_strs off_hours_profile /\
  dict_of_strs evening_profile <> dict_of_strs off_hours_profile.
Proof.
  repeat split; intros H; vm_compute in H; discriminate H.
Qed.

(** X12.  The status simulator depends on the hour only through its
    band: two hours get the same mapping and the same text when they
    lie in the same band, and the status route answers alike exactly
    then.  The power supply reads Main Grid at every hour. *)
Theorem status_by_band (h1 h2 : Z) :
  (band_of h1 = band_of h2 -> get_campus_status h1 = get_campus_status h2) /\
  (status h1 = status h2 <-> band_of h1 = band_of h2) /\
  py_getitem (json (status h1)) (py "Power Supply") = Ok (PyStr (py "Main Grid")).
Proof.
  assert (Hsame : band_of h1 = band_of h2 ->
                  get_campus_status h1 = get_campus_status h2).
  { intros Hb.
    rewrite (get_campus_status_eta h1), (get_campus_status_eta h2).
    rewrite (status_data_of_band h1), (status_data_of_band h2), Hb.
    reflexivity. }
  destruct profile_dicts_distinct as (Hpe & Hpo & Heo).
  split; [ exact Hsame | split; [ split | ] ].
  - rewrite !status_eq, (status_data_of_band h1), (status_data_of_band h2).
    intros H. pose proof (f_equal json H) as H'.
    destruct (band_of h1), (band_of h2); try reflexivity; exfalso;
      first [ exact (Hpe H') | exact (Hpe (eq_sym H'))
            | exact (Hpo H') | exact (Hpo (eq_sym H'))
            | exact (Heo H') | exact (Heo (eq_sym H')) ].
  - intros Hb. unfold status. rewrite (Hsame Hb). reflexivity.
  - rewrite status_eq, (status_data_of_band h1).
    destruct (band_of h1); reflexivity.
Qed.

Lemma status_by_band_witness :
  get_campus_status 9 = get_campus_status 15.
Proof.
  apply (status_by_band 9 15). reflexivity.
Defined.

(* ===================================================================== *)
(** ** What reaches the caller, and what of the body counts *)
(* ===================================================================== *)

Lemma api_error_response_inj (s1 s2 : pystr) :
  error_response (APIError s1) = error_response (APIError s2) ->
  slice_to 50 s1 = slice_to 50 s2.
Proof.
  intros H.
  pose proof
    (f_equal (fun r => match json r with
                       | PyDict ((_, PyStr m) :: _) => m
                       | _ => []
                       end) H) as H'.
  change (api_error_prefix ++ slice_to 50 s1 ++ api_error_suffix =
          api_error_prefix ++ slice_to 50 s2 ++ api_error_suffix) in H'.
  apply app_inv_head in H'. apply app_inv_tail in H'. exact H'.
Qed.

(** X13.  Of the text of an API error only the first 50 characters
    reach the caller: two clients that fail on the request with API
    errors whose texts the terminal can write make the handler answer
    alike exactly when the two texts agree on their first 50
    characters. *)
Theorem chat_api_error_excerpt (out : Terminal) (c1 c2 : Client) (TD : pystr)
    (hour : Z) (request : Request) (q : api_request) (s1 s2 : pystr) :
  api_calls (chat out (Some c1) TD hour request) = [q] ->
  generate_content c1 q = Raise (APIError s1) ->
  generate_content c2 q = Raise (APIError s2) ->
  can_write out s1 = true ->
  can_write out s2 = true ->
  (run (chat out (Some c1) TD hour request) =
   run (chat out (Some c2) TD hour request)
   <-> slice_to 50 s1 = slice_to 50 s2).
Proof.
  intros Hq H1 H2 Hw1 Hw2. apply chat_calls_inv in Hq.
  rewrite !chat_run, Hq, H1, H2.
  unfold settle, handled. simpl isinstance_Exception. cbv iota.
  simpl str_exn. rewrite Hw1, Hw2.
  split.
  - intros H. apply api_error_response_inj.
    exact (f_equal (fun p => match fst p with
                             | Ok r => r
                             | Raise _ => generic_response
                             end) H).
  - intros H. unfold error_response. rewrite H. reflexivity.
Qed.

Lemma chat_api_error_excerpt_witness :
  run (chat Samples.utf8
         (Some (Samples.failing
                  (APIError (py "429 RESOURCE_EXHAUSTED. Quota exceeded for the current billing period."))))
         Samples.bus_data 10 Samples.request_bare) =
  run (chat Samples.utf8
         (Some (Samples.failing
                  (APIError (py "429 RESOURCE_EXHAUSTED. Quota exceeded for the cur"))))
         Samples.bus_data 10 Samples.request_bare).
Proof.
  apply (chat_api_error_excerpt Samples.utf8
           (Samples.failing
              (APIError (py "429 RESOURCE_EXHAUSTED. Quota exceeded for the current billing period.")))
           (Samples.failing
              (APIError (py "429 RESOURCE_EXHAUSTED. Quota exceeded for the cur")))
           Samples.bus_data 10 Samples.request_bare
           (request_for Samples.bus_data 10
              [service_turn (PyStr (py "user")) (PyStr [])])
           (py "429 RESOURCE_EXHAUSTED. Quota exceeded for the current billing period.")
           (py "429 RESOURCE_EXHAUSTED. Quota exceeded for the cur")).
  - reflexivity.
  - reflexivity.
  - reflexivity.
  - reflexivity.
  - reflexivity.
  - reflexivity.
Defined.

Lemma prepare_same_fields (TD : pystr) (hour : Z) (request1 request2 : Request)
    (items1 items2 : list (pystr * pyval)) :
  get_json request1 = Ok (PyDict items1) ->
  get_json request2 = Ok (PyDict items2) ->
  dict_lookup items1 (py "message") = dict_lookup items2 (py "message") ->
  dict_lookup items1 (py "history") = dict_lookup items2 (py "history") ->
  prepare TD hour request1 = prepare TD hour request2.
Proof.
  intros H1 H2 Hm Hh. unfold prepare.
  rewrite H1, H2, !py_get_message, !py_get_history.
  unfold message_value, history_value. rewrite Hm, Hh. reflexivity.
Qed.

(** X14.  Of a decoded body the handler uses the message and the
    history and nothing else: two bodies that agree on these two
    fields, whatever other fields they carry, lead to the same request
    to the model service and to the same response. *)
Theorem chat_ignores_other_fields (out : Terminal) (c : Client) (TD : pystr)
    (hour : Z) (request1 request2 : Request)
    (items1 items2 : list (pystr * pyval)) :
  get_json request1 = Ok (PyDict items1) ->
  get_json request2 = Ok (PyDict items2) ->
  dict_lookup items1 (py "message") = dict_lookup items2 (py "message") ->
  dict_lookup items1 (py "history") = dict_lookup items2 (py "history") ->
  run (chat out (Some c) TD hour request1) =
  run (chat out (Some c) TD hour request2).
Proof.
  intros H1 H2 Hm Hh. rewrite !chat_run.
  rewrite (prepare_same_fields TD hour request1 request2 items1 items2 H1 H2 Hm Hh).
  reflexivity.
Qed.

Lemma chat_ignores_other_fields_witness :
  run (chat Samples.utf8 (Some (Samples.answering Samples.response_grounded))
         Samples.bus_data 10
         {| get_json := Ok (PyDict [ (py "session", PyInt 7);
                                     (py "message", Samples.question) ]) |}) =
  run (chat Samples.utf8 (Some (Samples.answering Samples.response_grounded))
         Samples.bus_data 10
         {| get_json := Ok (PyDict [ (py "message", Samples.question) ]) |}).
Proof.
  apply (chat_ignores_other_fields Samples.utf8 _ _ _ _ _
           [ (py "session", PyInt 7); (py "message", Samples.question) ]
           [ (py "message", Samples.question) ]);
    reflexivity.
Defined.
